(** * Client-side model of the chatbot platform front end

    A shallow embedding of the React front end of the chatbot platform:
    the axios service layer ([frontend/src/services/api.js]), the route
    guards ([frontend/src/App.jsx]) and the event handlers of the Chat,
    Dashboard, ProjectDetail and Register pages.

    Conventions of the embedding.
    - A JavaScript string is a [string] (a sequence of code units below 256);
      [String.length] is the [.length] of the source.
    - JSON scalars are [jsval]; a property read [o.k] is a lookup [o !! k],
      where [None] stands for [undefined].
    - An event handler is a computation in the monad [ui S]: it reads and
      updates the component state [S], records every observable action
      (HTTP request, navigation, dialog, ...) in a trace, and may throw.
      The answers of the environment (outcome of an awaited request, answer
      to a [confirm] dialog, the current time) are arguments of the handler. *)

From Stdlib Require Import Ascii.
From stdpp Require Import base option list strings gmap fin_maps pretty.

Set Default Proof Using "Type".

(** ** JavaScript values *)

Module Js.

Inductive jsval :=
| JNull
| JBool (b : bool)
| JStr (s : string)
| JNum (n : Z).

#[global] Instance jsval_eq_dec : EqDecision jsval.
Proof. solve_decision. Defined.

(** ToBoolean; [None] is [undefined]. *)
Definition truthy (v : option jsval) : bool :=
  match v with
  | None => false
  | Some JNull => false
  | Some (JBool b) => b
  | Some (JStr s) => negb (bool_decide (s = ""))
  | Some (JNum n) => negb (bool_decide (n = 0%Z))
  end.

(** ToBoolean of a string. *)
Definition truthy_str (s : string) : bool := negb (bool_decide (s = "")).

(** ToString, as used by template literals. *)
Definition to_string (v : option jsval) : string :=
  match v with
  | None => "undefined"
  | Some JNull => "null"
  | Some (JBool true) => "true"
  | Some (JBool false) => "false"
  | Some (JStr s) => s
  | Some (JNum n) => pretty n
  end.

(** Strict equality [===] on scalars and [undefined]. *)
Definition strict_eq (a b : option jsval) : bool := bool_decide (a = b).

(** WhiteSpace and LineTerminator code units below 256:
    TAB, LF, VT, FF, CR, SP and NBSP. *)
Definition is_white_space (a : ascii) : bool :=
  match a with
  | "009" | "010" | "011" | "012" | "013" | " " | "160" => true
  | _ => false
  end%char.

Fixpoint trimStart (s : string) : string :=
  match s with
  | "" => ""
  | String a s' => if is_white_space a then trimStart s' else s
  end.

Definition trimEnd (s : string) : string :=
  String.rev (trimStart (String.rev s)).

(** [String.prototype.trim] *)
Definition trim (s : string) : string := trimEnd (trimStart s).

(** [Array.prototype.slice(0, -1)] *)
Definition slice_0_m1 {A} (l : list A) : list A := take (length l - 1) l.

End Js.
Export Js.

(** A JavaScript object holding JSON scalars. *)
Abbreviation jsobj := (gmap string jsval).

(** ** Requests, errors and observable actions *)

Inductive http_method := GET | POST | PUT | DELETE.

(** A [File] picked in a file input. *)
Record File := { file_name : string; file_content : string }.

Inductive request_data :=
| NoData
| JsonData (o : jsobj)
| FormData (entries : list (string * File)).

(** An axios request config. *)
Record request_config := {
  method : http_method;
  url : string;
  data : request_data;
  headers : gmap string string;
}.

(** The response carried by a rejected request: [error.response], with
    [status] and [data.detail]. *)
Record error_response := { status : Z; detail : option jsval }.

(** A rejection; [response] is absent when no response was received. *)
Record api_error := { response : option error_response }.

(** How an awaited promise settles. *)
Inductive outcome (A : Type) :=
| Fulfilled (value : A)
| Rejected (err : api_error).
Arguments Fulfilled {A} value.
Arguments Rejected {A} err.

Inductive effect :=
| EPreventDefault
| EStopPropagation
| ERequest (config : request_config)
| ERegister (email password name : string)
| ENavigate (to : string) (replace : bool)
| ELocationAssign (href : string)
| EConfirm (text : string) (answer : bool)
| EAlert (text : option jsval)
| EConsoleError (text : string)
| EFocusInput
| EResetFileInput.

#[global] Instance http_method_eq_dec : EqDecision http_method.
Proof. solve_decision. Defined.
#[global] Instance File_eq_dec : EqDecision File.
Proof. solve_decision. Defined.
#[global] Instance request_data_eq_dec : EqDecision request_data.
Proof. solve_decision. Defined.
#[global] Instance request_config_eq_dec : EqDecision request_config.
Proof. solve_decision. Defined.
#[global] Instance effect_eq_dec : EqDecision effect.
Proof. solve_decision. Defined.

(** ** The handler monad *)

Inductive completion (A : Type) :=
| Normal (a : A)
| Thrown (err : api_error).
Arguments Normal {A} a.
Arguments Thrown {A} err.

Definition ui (S A : Type) : Type := S → completion A * S * list effect.

Section Monad.
Context {S : Type}.

Definition ret {A} (a : A) : ui S A := λ st, (Normal a, st, []).

Definition bind {A B} (m : ui S A) (k : A → ui S B) : ui S B := λ st,
  match m st with
  | (Normal a, st1, t1) =>
      let '(r, st2, t2) := k a st1 in (r, st2, t1 ++ t2)
  | (Thrown err, st1, t1) => (Thrown err, st1, t1)
  end.

(** The state as the handler's closure sees it. *)
Definition get : ui S S := λ st, (Normal st, st, []).

Definition modify (f : S → S) : ui S unit := λ st, (Normal tt, f st, []).

Definition emit (e : effect) : ui S unit := λ st, (Normal tt, st, [e]).

Definition throw {A} (err : api_error) : ui S A := λ st, (Thrown err, st, []).

(** [await p], where the promise [p] settles as [o]. *)
Definition await {A} (o : outcome A) : ui S A :=
  match o with
  | Fulfilled v => ret v
  | Rejected err => throw err
  end.

(** [try { body } catch (err) { handler err }] *)
Definition try_catch {A} (body : ui S A) (handler : api_error → ui S A)
  : ui S A := λ st,
  match body st with
  | (Normal a, st1, t1) => (Normal a, st1, t1)
  | (Thrown err, st1, t1) =>
      let '(r, st2, t2) := handler err st1 in (r, st2, t1 ++ t2)
  end.

(** [try { body } finally { fin }] *)
Definition finally {A} (body : ui S A) (fin : ui S unit) : ui S A := λ st,
  let '(r, st1, t1) := body st in
  match fin st1 with
  | (Normal _, st2, t2) => (r, st2, t1 ++ t2)
  | (Thrown err, st2, t2) => (Thrown err, st2, t1 ++ t2)
  end.

Definition final_state {A} (r : completion A * S * list effect) : S :=
  snd (fst r).
Definition trace {A} (r : completion A * S * list effect) : list effect :=
  snd r.
Definition result {A} (r : completion A * S * list effect) : completion A :=
  fst (fst r).
End Monad.

#[global] Instance ui_ret {S} : MRet (ui S) := λ A, ret.
#[global] Instance ui_bind {S} : MBind (ui S) := λ A B k m, bind m k.

(** Running a handler from a state. *)
Definition run {S A} (m : ui S A) (st : S) : completion A * S * list effect :=
  m st.

(** ** [frontend/src/services/api.js] *)

Module Api.

(** The part of the browser the service layer touches. *)
Record browser := {
  localStorage : gmap string string;
  pathname : string;
}.

(** Headers of the axios instance ([axios.create]). *)
Definition default_headers : gmap string string :=
  {[ "Content-Type" := "application/json" ]}.

(** [localStorage.getItem]: [None] is [null]. *)
Definition getItem (k : string) (b : browser) : option string :=
  localStorage b !! k.

Definition removeItem (k : string) : ui browser unit :=
  modify (λ b, {| localStorage := delete k (localStorage b);
                  pathname := pathname b |}).

(** [api.interceptors.request.use]: add the auth token to a request. *)
Definition request_interceptor (b : browser) (config : request_config)
  : request_config :=
  let token := getItem "token" b in
  match token with
  | Some t =>
      if truthy_str t then
        {| method := method config;
           url := url config;
           data := data config;
           headers := <["Authorization" := "Bearer " +:+ t]> (headers config) |}
      else config
  | None => config
  end.

(** [api.interceptors.response.use], first callback. *)
Definition response_fulfilled {A} (resp : A) : ui browser A := mret resp.

(** [api.interceptors.response.use], second callback. *)
Definition response_rejected {A} (error : api_error) : ui browser A :=
  b ← get;
  (if bool_decide (status <$> response error = Some 401%Z) then
     removeItem "token";;
     if bool_decide (pathname b ≠ "/login")
     then emit (ELocationAssign "/login")
     else mret tt
   else mret tt);;
  throw error.

(** The response interceptor applied to a settled request. *)
Definition response_interceptor {A} (o : outcome A) : ui browser A :=
  match o with
  | Fulfilled resp => response_fulfilled resp
  | Rejected error => response_rejected error
  end.

Definition request (m : http_method) (u : string) (d : request_data)
  : request_config :=
  {| method := m; url := u; data := d; headers := default_headers |}.

(** Project API functions *)
Definition projectAPI_list : request_config :=
  request GET "/projects" NoData.
Definition projectAPI_get (id : option jsval) : request_config :=
  request GET ("/projects/" +:+ to_string id) NoData.
Definition projectAPI_create (d : jsobj) : request_config :=
  request POST "/projects" (JsonData d).
Definition projectAPI_update (id : option jsval) (d : jsobj) : request_config :=
  request PUT ("/projects/" +:+ to_string id) (JsonData d).
Definition projectAPI_delete (id : option jsval) : request_config :=
  request DELETE ("/projects/" +:+ to_string id) NoData.

(** Prompt API functions *)
Definition promptAPI_list (projectId : option jsval) : request_config :=
  request GET ("/projects/" +:+ to_string projectId +:+ "/prompts") NoData.
Definition promptAPI_create (projectId : option jsval) (d : jsobj)
  : request_config :=
  request POST ("/projects/" +:+ to_string projectId +:+ "/prompts")
    (JsonData d).
Definition promptAPI_update (promptId : option jsval) (d : jsobj)
  : request_config :=
  request PUT ("/projects/prompts/" +:+ to_string promptId) (JsonData d).
Definition promptAPI_delete (promptId : option jsval) : request_config :=
  request DELETE ("/projects/prompts/" +:+ to_string promptId) NoData.

(** Chat API functions; [sessionId] defaults to [null] when [undefined]. *)
Definition chatAPI_sendMessage (projectId : option jsval) (message : string)
    (sessionId : option jsval) : request_config :=
  request POST ("/projects/" +:+ to_string projectId +:+ "/chat")
    (JsonData {[ "message" := JStr message;
                 "session_id" := default JNull sessionId ]}).
Definition chatAPI_listSessions (projectId : option jsval) : request_config :=
  request GET ("/projects/" +:+ to_string projectId +:+ "/sessions") NoData.
Definition chatAPI_getSession (projectId sessionId : option jsval)
  : request_config :=
  request GET ("/projects/" +:+ to_string projectId +:+ "/sessions/"
               +:+ to_string sessionId) NoData.
Definition chatAPI_createSession (projectId : option jsval) : request_config :=
  request POST ("/projects/" +:+ to_string projectId +:+ "/sessions") NoData.
Definition chatAPI_deleteSession (projectId sessionId : option jsval)
  : request_config :=
  request DELETE ("/projects/" +:+ to_string projectId +:+ "/sessions/"
                  +:+ to_string sessionId) NoData.

(** File API functions *)
Definition fileAPI_list (projectId : option jsval) : request_config :=
  request GET ("/projects/" +:+ to_string projectId +:+ "/files") NoData.
Definition fileAPI_upload (projectId : option jsval) (file : File)
  : request_config :=
  let formData := [] ++ [("file", file)] in
  {| method := POST;
     url := "/projects/" +:+ to_string projectId +:+ "/files";
     data := FormData formData;
     headers := <["Content-Type" := "multipart/form-data"]> default_headers |}.
Definition fileAPI_delete (fileId : option jsval) : request_config :=
  request DELETE ("/files/" +:+ to_string fileId) NoData.

End Api.

(** A request sent through the API layer and awaited: the call is recorded,
    then the handler resumes with the outcome [o]. *)
Definition call {S A} (config : request_config) (o : outcome A) : ui S A :=
  emit (ERequest config);; await o.

(** [err.response?.data?.detail || fallback] *)
Definition detail_or (err : api_error) (fallback : string) : option jsval :=
  if truthy (response err ≫= detail)
  then response err ≫= detail
  else Some (JStr fallback).

(** [confirm(text)], answered by the user with [answer]. *)
Definition confirm {S} (text : string) (answer : bool) : ui S bool :=
  emit (EConfirm text answer);; mret answer.

(** The requests recorded in a trace, in order. *)
Definition requests (t : list effect) : list request_config :=
  omap (λ e, match e with ERequest c => Some c | _ => None end) t.

(** [Promise.all] of two settled promises: fulfilled with both values when
    both are fulfilled, rejected otherwise. When both reject, the rejection
    that comes first wins in the source; the handlers only log it, and the
    model reports the first in array order. *)
Definition all2 {A B} (o1 : outcome A) (o2 : outcome B) : outcome (A * B) :=
  match o1, o2 with
  | Fulfilled a, Fulfilled b => Fulfilled (a, b)
  | Rejected err, _ => Rejected err
  | Fulfilled _, Rejected err => Rejected err
  end.

(** [p.catch(() => fallback)] *)
Definition recover {A} (o : outcome A) (fallback : A) : outcome A :=
  match o with
  | Fulfilled v => Fulfilled v
  | Rejected _ => Fulfilled fallback
  end.

(** ** [frontend/src/pages/Chat.jsx] *)

Module Chat.

Record state := {
  project : option jsobj;
  sessions : list jsobj;
  currentSessionId : option jsval;
  messages : list jsobj;
  inputValue : string;
  loading : bool;
  sending : bool;
  showSidebar : bool;
}.

Definition setSessions (v : list jsobj) : ui state unit :=
  modify (λ st, {| project := project st; sessions := v;
    currentSessionId := currentSessionId st; messages := messages st;
    inputValue := inputValue st; loading := loading st;
    sending := sending st; showSidebar := showSidebar st |}).
Definition setCurrentSessionId (v : option jsval) : ui state unit :=
  modify (λ st, {| project := project st; sessions := sessions st;
    currentSessionId := v; messages := messages st;
    inputValue := inputValue st; loading := loading st;
    sending := sending st; showSidebar := showSidebar st |}).
(** [setMessages] with an updater function [prev => ...]. *)
Definition setMessages (f : list jsobj → list jsobj) : ui state unit :=
  modify (λ st, {| project := project st; sessions := sessions st;
    currentSessionId := currentSessionId st; messages := f (messages st);
    inputValue := inputValue st; loading := loading st;
    sending := sending st; showSidebar := showSidebar st |}).
Definition setInputValue (v : string) : ui state unit :=
  modify (λ st, {| project := project st; sessions := sessions st;
    currentSessionId := currentSessionId st; messages := messages st;
    inputValue := v; loading := loading st;
    sending := sending st; showSidebar := showSidebar st |}).
Definition setSending (v : bool) : ui state unit :=
  modify (λ st, {| project := project st; sessions := sessions st;
    currentSessionId := currentSessionId st; messages := messages st;
    inputValue := inputValue st; loading := loading st;
    sending := v; showSidebar := showSidebar st |}).

(** Body of [response.data] for a chat send. *)
Record chat_response := {
  data_session_id : option jsval;
  data_message : jsobj;
}.
(** Body of [response.data] for a session fetch. *)
Record session_response := { data_messages : option (list jsobj) }.

Section Component.
(** Route parameter [projectId] of [useParams]. *)
Variable projectId : option jsval.
(** Whether [inputRef.current] is set. *)
Variable inputRef_current : bool.

(** [inputRef.current?.focus()] *)
Definition focusInput : ui state unit :=
  if inputRef_current then emit EFocusInput else mret tt.

Definition fetchSession (sid : option jsval)
    (fetched : outcome session_response) : ui state unit :=
  try_catch
    (response ← call (Api.chatAPI_getSession projectId sid) fetched;
     setMessages (λ _, default [] (data_messages response)))
    (λ err,
     emit (EConsoleError "Failed to fetch session:");;
     setMessages (λ _, [])).

(** The user message built by [handleSendMessage]; [now] is
    [new Date().toISOString()]. *)
Definition userMessage (message now : string) : jsobj :=
  {[ "role" := JStr "user";
     "content" := JStr message;
     "timestamp" := JStr now ]}.

(** The state while a send is in flight: input cleared, [sending] set and
    the user message appended. *)
Definition sending_state (now : string) (st : state) : state :=
  {| project := project st; sessions := sessions st;
     currentSessionId := currentSessionId st;
     messages := messages st ++ [userMessage (trim (inputValue st)) now];
     inputValue := ""; loading := loading st;
     sending := true; showSidebar := showSidebar st |}.

(** [handleSendMessage] up to the [try] statement: the guard and the
    optimistic update. Returns the trimmed message, or [None] when the
    handler returns early. *)
Definition handleSendMessage_begin (now : string)
  : ui state (option string) :=
  emit EPreventDefault;;
  st ← get;
  if negb (truthy_str (trim (inputValue st))) || sending st then mret None
  else
    let message := trim (inputValue st) in
    setInputValue "";;
    setSending true;;
    (* Optimistically add user message *)
    setMessages (λ prev, prev ++ [userMessage message now]);;
    mret (Some message).

(** The [try]/[catch]/[finally] statement of [handleSendMessage];
    [currentSessionId] is the value the handler's closure holds. *)
Definition handleSendMessage_exchange (currentSessionId : option jsval)
    (message : string) (sent : outcome chat_response)
    (listed : outcome (list jsobj)) : ui state unit :=
  finally
    (try_catch
       (response ← call (Api.chatAPI_sendMessage projectId message
                           currentSessionId) sent;
        (* Update session ID if this is a new session *)
        (if negb (truthy currentSessionId) then
           setCurrentSessionId (data_session_id response);;
           emit (ENavigate ("/project/" +:+ to_string projectId +:+ "/chat/"
                            +:+ to_string (data_session_id response)) true);;
           (* Refresh sessions list *)
           sessionsRes ← call (Api.chatAPI_listSessions projectId) listed;
           setSessions sessionsRes
         else mret tt);;
        (* Add assistant message *)
        setMessages (λ prev, prev ++ [data_message response]))
       (λ err,
        emit (EConsoleError "Failed to send message:");;
        (* Remove the optimistic message on error *)
        setMessages (λ prev, slice_0_m1 prev);;
        emit (EAlert
                (detail_or err "Failed to send message. Please try again."))))
    (setSending false;;
     focusInput).

Definition handleSendMessage (now : string) (sent : outcome chat_response)
    (listed : outcome (list jsobj)) : ui state unit :=
  st ← get;
  started ← handleSendMessage_begin now;
  match started with
  | None => mret tt
  | Some message =>
      handleSendMessage_exchange (currentSessionId st) message sent listed
  end.

Definition handleNewChat : ui state unit :=
  setCurrentSessionId (Some JNull);;
  setMessages (λ _, []);;
  emit (ENavigate ("/project/" +:+ to_string projectId +:+ "/chat") true);;
  focusInput.

Definition handleSelectSession (sid : option jsval)
    (fetched : outcome session_response) : ui state unit :=
  st ← get;
  if strict_eq sid (currentSessionId st) then mret tt
  else
    setCurrentSessionId sid;;
    emit (ENavigate ("/project/" +:+ to_string projectId +:+ "/chat/"
                     +:+ to_string sid) false);;
    fetchSession sid fetched.
Definition setProject (v : option jsobj) : ui state unit :=
  modify (λ st, {| project := v; sessions := sessions st;
    currentSessionId := currentSessionId st; messages := messages st;
    inputValue := inputValue st; loading := loading st;
    sending := sending st; showSidebar := showSidebar st |}).
Definition setLoading (v : bool) : ui state unit :=
  modify (λ st, {| project := project st; sessions := sessions st;
    currentSessionId := currentSessionId st; messages := messages st;
    inputValue := inputValue st; loading := v;
    sending := sending st; showSidebar := showSidebar st |}).

(** The state of the component when it mounts on a route with parameter
    [sessionId]: the [useState] initial values. *)
Definition initial_state (sessionId : option jsval) : state :=
  {| project := None; sessions := [];
     currentSessionId := if truthy sessionId then sessionId else Some JNull;
     messages := []; inputValue := "";
     loading := true; sending := false; showSidebar := true |}.

(** [fetchInitialData]; [sessionId] is the route parameter. Both requests
    of the [Promise.all] are issued before either is awaited. *)
Definition fetchInitialData (sessionId : option jsval)
    (projectRes : outcome jsobj) (sessionsRes : outcome (list jsobj))
    (fetched : outcome session_response) : ui state unit :=
  finally
    (try_catch
       (emit (ERequest (Api.projectAPI_get projectId));;
        emit (ERequest (Api.chatAPI_listSessions projectId));;
        both ← await (all2 projectRes sessionsRes);
        setProject (Some (fst both));;
        setSessions (snd both);;
        if truthy sessionId then fetchSession sessionId fetched else mret tt)
       (λ err,
        emit (EConsoleError "Failed to fetch data:");;
        emit (ENavigate "/dashboard" false)))
    (setLoading false).

(** The effect that runs when the route parameter [sessionId] changes. *)
Definition sessionIdEffect (sessionId : option jsval)
    (fetched : outcome session_response) : ui state unit :=
  st ← get;
  if truthy sessionId && negb (strict_eq sessionId (currentSessionId st)) then
    setCurrentSessionId sessionId;;
    fetchSession sessionId fetched
  else mret tt.

Definition handleDeleteSession (sid : option jsval) (confirmed : bool)
    (deleted : outcome unit) : ui state unit :=
  st ← get;
  emit EStopPropagation;;
  ok ← confirm "Delete this conversation?" confirmed;
  if negb ok then mret tt
  else
    try_catch
      (call (Api.chatAPI_deleteSession projectId sid) deleted;;
       setSessions (filter (λ s, s !! "_id" ≠ sid) (sessions st));;
       if strict_eq sid (currentSessionId st) then handleNewChat else mret tt)
      (λ err, emit (EConsoleError "Failed to delete session:")).

(** [disabled] of the send button. *)
Definition send_disabled (st : state) : bool :=
  negb (truthy_str (trim (inputValue st))) || sending st.

End Component.

End Chat.

(** ** Dashboard page ([src/unnamed/part_000]) *)

Module Dashboard.

Record project_form := {
  form_name : string;
  form_description : string;
  form_system_prompt : string;
}.

Record state := {
  projects : list jsobj;
  loading : bool;
  showModal : bool;
  newProject : project_form;
  creating : bool;
  error : option jsval;
}.

Definition setProjects (v : list jsobj) : ui state unit :=
  modify (λ st, {| projects := v; loading := loading st;
    showModal := showModal st; newProject := newProject st;
    creating := creating st; error := error st |}).

Definition delete_confirmation : string :=
  "Are you sure you want to delete this project? All associated data will be lost.".

(** [confirmed] is the user's answer to the dialog, [deleted] the outcome
    of the delete request. *)
Definition handleDeleteProject (projectId : option jsval)
    (confirmed : bool) (deleted : outcome unit) : ui state unit :=
  st ← get;
  emit EPreventDefault;;
  emit EStopPropagation;;
  ok ← confirm delete_confirmation confirmed;
  if negb ok then mret tt
  else
    try_catch
      (call (Api.projectAPI_delete projectId) deleted;;
       setProjects (filter (λ p, p !! "_id" ≠ projectId) (projects st)))
      (λ err, emit (EConsoleError "Failed to delete project:")).

Definition setLoading (v : bool) : ui state unit :=
  modify (λ st, {| projects := projects st; loading := v;
    showModal := showModal st; newProject := newProject st;
    creating := creating st; error := error st |}).
Definition setShowModal (v : bool) : ui state unit :=
  modify (λ st, {| projects := projects st; loading := loading st;
    showModal := v; newProject := newProject st;
    creating := creating st; error := error st |}).
Definition setNewProject (v : project_form) : ui state unit :=
  modify (λ st, {| projects := projects st; loading := loading st;
    showModal := showModal st; newProject := v;
    creating := creating st; error := error st |}).
Definition setCreating (v : bool) : ui state unit :=
  modify (λ st, {| projects := projects st; loading := loading st;
    showModal := showModal st; newProject := newProject st;
    creating := v; error := error st |}).
Definition setError (v : option jsval) : ui state unit :=
  modify (λ st, {| projects := projects st; loading := loading st;
    showModal := showModal st; newProject := newProject st;
    creating := creating st; error := v |}).

Definition fetchProjects (listed : outcome (list jsobj)) : ui state unit :=
  finally
    (try_catch
       (response ← call Api.projectAPI_list listed;
        setProjects response)
       (λ err, emit (EConsoleError "Failed to fetch projects:")))
    (setLoading false).

Definition default_system_prompt : string := "You are a helpful AI assistant.".

(** The body [handleCreateProject] sends for a form. *)
Definition create_payload (form : project_form) : jsobj :=
  {[ "name" := JStr (form_name form);
     "description" :=
       if truthy_str (form_description form)
       then JStr (form_description form) else JNull;
     "system_prompt" :=
       JStr (if truthy_str (form_system_prompt form)
             then form_system_prompt form else default_system_prompt) ]}.

Definition empty_form : project_form :=
  {| form_name := ""; form_description := ""; form_system_prompt := "" |}.

Definition handleCreateProject (created : outcome jsobj) : ui state unit :=
  st ← get;
  emit EPreventDefault;;
  setError (Some (JStr ""));;
  setCreating true;;
  finally
    (try_catch
       (response ← call (Api.projectAPI_create (create_payload (newProject st)))
                     created;
        setProjects (response :: projects st);;
        setShowModal false;;
        setNewProject empty_form)
       (λ err, setError (detail_or err "Failed to create project")))
    (setCreating false).

End Dashboard.

(** ** Register page ([src/unnamed/part_001]) *)

Module Register.

Record state := {
  name : string;
  email : string;
  password : string;
  confirmPassword : string;
  error : option jsval;
  loading : bool;
}.

Definition setError (v : option jsval) : ui state unit :=
  modify (λ st, {| name := name st; email := email st;
    password := password st; confirmPassword := confirmPassword st;
    error := v; loading := loading st |}).
Definition setLoading (v : bool) : ui state unit :=
  modify (λ st, {| name := name st; email := email st;
    password := password st; confirmPassword := confirmPassword st;
    error := error st; loading := v |}).

(** [register] of [useAuth]. The auth context is not among the sources at
    hand, so the call is recorded with its arguments and its outcome
    [registered] is a parameter. *)
Definition register (email password name : string) (registered : outcome unit)
  : ui state unit :=
  emit (ERegister email password name);; await registered.

Definition handleSubmit (registered : outcome unit) : ui state unit :=
  st ← get;
  emit EPreventDefault;;
  setError (Some (JStr ""));;
  if negb (bool_decide (password st = confirmPassword st)) then
    setError (Some (JStr "Passwords do not match"))
  else if String.length (password st) <? 6 then
    setError (Some (JStr "Password must be at least 6 characters"))
  else
    setLoading true;;
    finally
      (try_catch
         (register (email st) (password st) (name st) registered;;
          emit (ENavigate "/dashboard" false))
         (λ err,
          setError (detail_or err "Registration failed. Please try again.")))
      (setLoading false).

End Register.

(** ** Project page ([src/unnamed/part_002]) *)

Module ProjectDetail.

Record project_form := {
  form_name : string;
  form_description : string;
  form_system_prompt : string;
}.
Record prompt_form := { prompt_name : string; prompt_content : string }.

Record state := {
  project : option jsobj;
  prompts : list jsobj;
  files : list jsobj;
  sessions : list jsobj;
  loading : bool;
  activeTab : string;
  editing : bool;
  editForm : project_form;
  saving : bool;
  showPromptModal : bool;
  newPrompt : prompt_form;
  creatingPrompt : bool;
  uploading : bool;
}.

Definition setPrompts (v : list jsobj) : ui state unit :=
  modify (λ st, {| project := project st; prompts := v; files := files st;
    sessions := sessions st; loading := loading st;
    activeTab := activeTab st; editing := editing st;
    editForm := editForm st; saving := saving st;
    showPromptModal := showPromptModal st; newPrompt := newPrompt st;
    creatingPrompt := creatingPrompt st; uploading := uploading st |}).
Definition setFiles (v : list jsobj) : ui state unit :=
  modify (λ st, {| project := project st; prompts := prompts st; files := v;
    sessions := sessions st; loading := loading st;
    activeTab := activeTab st; editing := editing st;
    editForm := editForm st; saving := saving st;
    showPromptModal := showPromptModal st; newPrompt := newPrompt st;
    creatingPrompt := creatingPrompt st; uploading := uploading st |}).
Definition setUploading (v : bool) : ui state unit :=
  modify (λ st, {| project := project st; prompts := prompts st;
    files := files st; sessions := sessions st; loading := loading st;
    activeTab := activeTab st; editing := editing st;
    editForm := editForm st; saving := saving st;
    showPromptModal := showPromptModal st; newPrompt := newPrompt st;
    creatingPrompt := creatingPrompt st; uploading := v |}).

(** [!p.is_active] as a JSON value *)
Definition not_is_active (p : jsobj) : jsval :=
  JBool (negb (truthy (p !! "is_active"))).

Definition setProject (v : option jsobj) : ui state unit :=
  modify (λ st, {|
    project := v; prompts := prompts st; files := files st;
    sessions := sessions st; loading := loading st;
    activeTab := activeTab st; editing := editing st;
    editForm := editForm st; saving := saving st;
    showPromptModal := showPromptModal st; newPrompt := newPrompt st;
    creatingPrompt := creatingPrompt st; uploading := uploading st |}).
Definition setSessions (v : list jsobj) : ui state unit :=
  modify (λ st, {|
    project := project st; prompts := prompts st; files := files st;
    sessions := v; loading := loading st; activeTab := activeTab st;
    editing := editing st; editForm := editForm st; saving := saving st;
    showPromptModal := showPromptModal st; newPrompt := newPrompt st;
    creatingPrompt := creatingPrompt st; uploading := uploading st |}).
Definition setLoading (v : bool) : ui state unit :=
  modify (λ st, {|
    project := project st; prompts := prompts st; files := files st;
    sessions := sessions st; loading := v; activeTab := activeTab st;
    editing := editing st; editForm := editForm st; saving := saving st;
    showPromptModal := showPromptModal st; newPrompt := newPrompt st;
    creatingPrompt := creatingPrompt st; uploading := uploading st |}).
Definition setEditing (v : bool) : ui state unit :=
  modify (λ st, {|
    project := project st; prompts := prompts st; files := files st;
    sessions := sessions st; loading := loading st;
    activeTab := activeTab st; editing := v; editForm := editForm st;
    saving := saving st; showPromptModal := showPromptModal st;
    newPrompt := newPrompt st; creatingPrompt := creatingPrompt st;
    uploading := uploading st |}).
Definition setEditForm (v : project_form) : ui state unit :=
  modify (λ st, {|
    project := project st; prompts := prompts st; files := files st;
    sessions := sessions st; loading := loading st;
    activeTab := activeTab st; editing := editing st; editForm := v;
    saving := saving st; showPromptModal := showPromptModal st;
    newPrompt := newPrompt st; creatingPrompt := creatingPrompt st;
    uploading := uploading st |}).
Definition setSaving (v : bool) : ui state unit :=
  modify (λ st, {|
    project := project st; prompts := prompts st; files := files st;
    sessions := sessions st; loading := loading st;
    activeTab := activeTab st; editing := editing st;
    editForm := editForm st; saving := v;
    showPromptModal := showPromptModal st; newPrompt := newPrompt st;
    creatingPrompt := creatingPrompt st; uploading := uploading st |}).
Definition setShowPromptModal (v : bool) : ui state unit :=
  modify (λ st, {|
    project := project st; prompts := prompts st; files := files st;
    sessions := sessions st; loading := loading st;
    activeTab := activeTab st; editing := editing st;
    editForm := editForm st; saving := saving st; showPromptModal := v;
    newPrompt := newPrompt st; creatingPrompt := creatingPrompt st;
    uploading := uploading st |}).
Definition setNewPrompt (v : prompt_form) : ui state unit :=
  modify (λ st, {|
    project := project st; prompts := prompts st; files := files st;
    sessions := sessions st; loading := loading st;
    activeTab := activeTab st; editing := editing st;
    editForm := editForm st; saving := saving st;
    showPromptModal := showPromptModal st; newPrompt := v;
    creatingPrompt := creatingPrompt st; uploading := uploading st |}).
Definition setCreatingPrompt (v : bool) : ui state unit :=
  modify (λ st, {|
    project := project st; prompts := prompts st; files := files st;
    sessions := sessions st; loading := loading st;
    activeTab := activeTab st; editing := editing st;
    editForm := editForm st; saving := saving st;
    showPromptModal := showPromptModal st; newPrompt := newPrompt st;
    creatingPrompt := v; uploading := uploading st |}).

(** A project as the server returns it: [name] and [system_prompt] are
    strings and [description] is a string or [null]; [project_rest] holds
    the other fields. *)
Record project_data := {
  project_name : string;
  project_description : option string;
  project_system_prompt : string;
  project_rest : jsobj;
}.

(** The JavaScript object of a [project_data]. *)
Definition project_object (d : project_data) : jsobj :=
  <["name" := JStr (project_name d)]>
    (<["description" := from_option JStr JNull (project_description d)]>
       (<["system_prompt" := JStr (project_system_prompt d)]>
          (project_rest d))).

(** The edit form [fetchProjectData] fills from a project;
    [description || ''] for the description. *)
Definition form_of_project (d : project_data) : project_form :=
  {| form_name := project_name d;
     form_description := default "" (project_description d);
     form_system_prompt := project_system_prompt d |}.

(** The body [handleUpdateProject] sends: the edit form as it is. *)
Definition update_payload (form : project_form) : jsobj :=
  {[ "name" := JStr (form_name form);
     "description" := JStr (form_description form);
     "system_prompt" := JStr (form_system_prompt form) ]}.

(** The body [handleCreatePrompt] sends: the prompt form as it is. *)
Definition prompt_payload (form : prompt_form) : jsobj :=
  {[ "name" := JStr (prompt_name form);
     "content" := JStr (prompt_content form) ]}.

Definition empty_prompt_form : prompt_form :=
  {| prompt_name := ""; prompt_content := "" |}.

Section Component.
(** Route parameter [projectId] of [useParams]. *)
Variable projectId : option jsval.
(** Whether [fileInputRef.current] is set. *)
Variable fileInputRef_current : bool.

Definition handleTogglePrompt (prompt : jsobj) (updated : outcome unit)
  : ui state unit :=
  st ← get;
  try_catch
    (call (Api.promptAPI_update (prompt !! "_id")
             {[ "is_active" := not_is_active prompt ]}) updated;;
     setPrompts
       ((λ p, if strict_eq (p !! "_id") (prompt !! "_id")
              then <["is_active" := not_is_active p]> p
              else p) <$> prompts st))
    (λ err, emit (EConsoleError "Failed to toggle prompt:")).

(** [file] is [e.target.files?.[0]]. *)
Definition handleFileUpload (file : option File) (uploaded : outcome jsobj)
  : ui state unit :=
  st ← get;
  match file with
  | None => mret tt
  | Some file =>
      setUploading true;;
      finally
        (try_catch
           (response ← call (Api.fileAPI_upload projectId file) uploaded;
            setFiles (response :: files st))
           (λ err,
            emit (EConsoleError "Failed to upload file:");;
            emit (EAlert (detail_or err "File upload failed"))))
        (setUploading false;;
         if fileInputRef_current then emit EResetFileInput else mret tt)
  end.
(** [fetchProjectData]. The four requests of the [Promise.all] are issued
    before any is awaited; a rejected file list is replaced by an empty
    one. *)
Definition fetchProjectData (projectRes : outcome project_data)
    (promptsRes filesRes sessionsRes : outcome (list jsobj)) : ui state unit :=
  finally
    (try_catch
       (emit (ERequest (Api.projectAPI_get projectId));;
        emit (ERequest (Api.promptAPI_list projectId));;
        emit (ERequest (Api.fileAPI_list projectId));;
        emit (ERequest (Api.chatAPI_listSessions projectId));;
        res ← await (all2 projectRes
                       (all2 promptsRes
                          (all2 (recover filesRes []) sessionsRes)));
        setProject (Some (project_object (fst res)));;
        setPrompts (fst (snd res));;
        setFiles (fst (snd (snd res)));;
        setSessions (snd (snd (snd res)));;
        setEditForm (form_of_project (fst res)))
       (λ err,
        emit (EConsoleError "Failed to fetch project:");;
        emit (ENavigate "/dashboard" false)))
    (setLoading false).

Definition handleUpdateProject (updated : outcome jsobj) : ui state unit :=
  st ← get;
  emit EPreventDefault;;
  setSaving true;;
  finally
    (try_catch
       (response ← call (Api.projectAPI_update projectId
                           (update_payload (editForm st))) updated;
        setProject (Some response);;
        setEditing false)
       (λ err, emit (EConsoleError "Failed to update project:")))
    (setSaving false).

Definition handleCreatePrompt (created : outcome jsobj) : ui state unit :=
  st ← get;
  emit EPreventDefault;;
  setCreatingPrompt true;;
  finally
    (try_catch
       (response ← call (Api.promptAPI_create projectId
                           (prompt_payload (newPrompt st))) created;
        setPrompts (response :: prompts st);;
        setShowPromptModal false;;
        setNewPrompt empty_prompt_form)
       (λ err, emit (EConsoleError "Failed to create prompt:")))
    (setCreatingPrompt false).

Definition handleDeletePrompt (promptId : option jsval) (confirmed : bool)
    (deleted : outcome unit) : ui state unit :=
  st ← get;
  ok ← confirm "Delete this prompt?" confirmed;
  if negb ok then mret tt
  else
    try_catch
      (call (Api.promptAPI_delete promptId) deleted;;
       setPrompts (filter (λ p, p !! "_id" ≠ promptId) (prompts st)))
      (λ err, emit (EConsoleError "Failed to delete prompt:")).

Definition handleDeleteFile (fileId : option jsval) (confirmed : bool)
    (deleted : outcome unit) : ui state unit :=
  st ← get;
  ok ← confirm "Delete this file?" confirmed;
  if negb ok then mret tt
  else
    try_catch
      (call (Api.fileAPI_delete fileId) deleted;;
       setFiles (filter (λ f, f !! "_id" ≠ fileId) (files st)))
      (λ err, emit (EConsoleError "Failed to delete file:")).

(** The four requests of [fetchProjectData], in the order they are
    issued. *)
Definition page_requests : list request_config :=
  [Api.projectAPI_get projectId; Api.promptAPI_list projectId;
   Api.fileAPI_list projectId; Api.chatAPI_listSessions projectId].
End Component.

End ProjectDetail.

(** ** Route guards and route table ([frontend/src/App.jsx]) *)

Module App.

(** What [useAuth] provides to the guards. *)
Record auth := { user : option jsobj; loading : bool }.

Inductive page := Login | Register | Dashboard | ProjectDetail | Chat.

(** What a route element renders to. *)
Inductive element :=
| LoadingDots
| Navigate (to : string) (replace : bool)
| Page (p : page).

#[global] Instance page_eq_dec : EqDecision page.
Proof. solve_decision. Defined.
#[global] Instance element_eq_dec : EqDecision element.
Proof. solve_decision. Defined.

Definition ProtectedRoute (a : auth) (children : element) : element :=
  if loading a then LoadingDots
  else if negb (bool_decide (is_Some (user a))) then Navigate "/login" true
  else children.

Definition PublicRoute (a : auth) (children : element) : element :=
  if loading a then LoadingDots
  else if bool_decide (is_Some (user a)) then Navigate "/dashboard" true
  else children.

(** The [<Routes>] table of [App]: path pattern and rendered element. *)
Definition routes (a : auth) : list (string * element) :=
  [ ("/login", PublicRoute a (Page Login));
    ("/register", PublicRoute a (Page Register));
    ("/dashboard", ProtectedRoute a (Page Dashboard));
    ("/project/:projectId", ProtectedRoute a (Page ProjectDetail));
    ("/project/:projectId/chat", ProtectedRoute a (Page Chat));
    ("/project/:projectId/chat/:sessionId", ProtectedRoute a (Page Chat));
    ("/", Navigate "/dashboard" true);
    ("*", Navigate "/dashboard" true) ].

(** The patterns of the routes wrapped in [ProtectedRoute]. *)
Definition protected_paths : list string :=
  [ "/dashboard"; "/project/:projectId"; "/project/:projectId/chat";
    "/project/:projectId/chat/:sessionId" ].

Definition renders_page (e : element) : bool :=
  match e with Page _ => true | _ => false end.

(** Where [<Navigate to=...>] leads: the element of the route whose pattern
    is the target. The targets used in [App] are static paths; a target
    that is no pattern of the table falls to the catch-all route. *)
Definition element_at (a : auth) (path : string) : element :=
  match list_find (λ r, fst r = path) (routes a) with
  | Some (_, (_, e)) => e
  | None => Navigate "/dashboard" true
  end.

(** Follow redirects, at most [hops] of them. *)
Fixpoint settle (hops : nat) (a : auth) (e : element) : element :=
  match e, hops with
  | Navigate to _, S hops' => settle hops' a (element_at a to)
  | _, _ => e
  end.

End App.

(** ** Sample data *)

Module Examples.

Definition pid : option jsval := Some (JStr "p1").

Definition greeting : jsobj :=
  {[ "role" := JStr "assistant";
     "content" := JStr "How can I help?";
     "timestamp" := JStr "2026-01-05T10:00:00.000Z" ]}.

Definition assistant_reply : jsobj :=
  {[ "role" := JStr "assistant";
     "content" := JStr "Bonjour";
     "timestamp" := JStr "2026-01-05T10:00:03.000Z" ]}.

Definition clock : string := "2026-01-05T10:00:02.000Z".

(** A chat page showing session [s1]. *)
Definition chat_in_session : Chat.state :=
  {| Chat.project := None; Chat.sessions := [];
     Chat.currentSessionId := Some (JStr "s1");
     Chat.messages := [greeting];
     Chat.inputValue := " Hello ";
     Chat.loading := false; Chat.sending := false;
     Chat.showSidebar := true |}.

(** A chat page with no session yet. *)
Definition chat_fresh : Chat.state :=
  {| Chat.project := None; Chat.sessions := [];
     Chat.currentSessionId := Some JNull;
     Chat.messages := [];
     Chat.inputValue := "Hello";
     Chat.loading := false; Chat.sending := false;
     Chat.showSidebar := true |}.

(** A chat page whose input holds only white space. *)
Definition chat_blank : Chat.state :=
  {| Chat.project := None; Chat.sessions := [];
     Chat.currentSessionId := Some (JStr "s1");
     Chat.messages := [greeting];
     Chat.inputValue := "   ";
     Chat.loading := false; Chat.sending := false;
     Chat.showSidebar := true |}.

Definition reply : Chat.chat_response :=
  {| Chat.data_session_id := Some (JStr "s1");
     Chat.data_message := assistant_reply |}.

Definition upstream_failure : api_error :=
  {| response := Some {| status := 502;
                         detail := Some (JStr "AI service error") |} |}.

Definition network_failure : api_error := {| response := None |}.

Definition session_s1 : Chat.session_response :=
  {| Chat.data_messages := Some [greeting] |}.

(** A browser holding a token, on the dashboard. *)
Definition signed_in : Api.browser :=
  {| Api.localStorage := {[ "token" := "abc.def.ghi" ]};
     Api.pathname := "/dashboard" |}.

Definition unauthorized : api_error :=
  {| response :=
       Some {| status := 401;
               detail := Some (JStr "Could not validate credentials") |} |}.

(** Auth states of the route guards. *)
Definition signed_out_auth : App.auth :=
  {| App.user := None; App.loading := false |}.
Definition signed_in_auth : App.auth :=
  {| App.user := Some {[ "email" := JStr "a@b.c" ]}; App.loading := false |}.

(** Registration forms. *)
Definition form_ok : Register.state :=
  {| Register.name := "Ann"; Register.email := "ann@example.org";
     Register.password := "secret1"; Register.confirmPassword := "secret1";
     Register.error := Some (JStr ""); Register.loading := false |}.
Definition form_mismatch : Register.state :=
  {| Register.name := "Ann"; Register.email := "ann@example.org";
     Register.password := "secret1"; Register.confirmPassword := "secret2";
     Register.error := Some (JStr ""); Register.loading := false |}.

(** Projects on the dashboard. *)
Definition project_bot : jsobj :=
  {[ "_id" := JStr "p1"; "name" := JStr "Bot";
     "system_prompt" := JStr "You are a helpful AI assistant." ]}.
Definition project_faq : jsobj :=
  {[ "_id" := JStr "p2"; "name" := JStr "FAQ";
     "system_prompt" := JStr "Answer briefly." ]}.
Definition dashboard : Dashboard.state :=
  {| Dashboard.projects := [project_bot; project_faq];
     Dashboard.loading := false; Dashboard.showModal := false;
     Dashboard.newProject :=
       {| Dashboard.form_name := ""; Dashboard.form_description := "";
          Dashboard.form_system_prompt := "" |};
     Dashboard.creating := false; Dashboard.error := Some (JStr "") |}.

(** Prompts and files on the project page. *)
Definition prompt_french : jsobj :=
  {[ "_id" := JStr "q1"; "name" := JStr "French";
     "content" := JStr "Reply in French."; "is_active" := JBool true ]}.
Definition prompt_short : jsobj :=
  {[ "_id" := JStr "q2"; "name" := JStr "Short";
     "content" := JStr "Be concise."; "is_active" := JBool false ]}.
Definition stored_file : jsobj :=
  {[ "_id" := JStr "f1"; "filename" := JStr "notes.txt";
     "size" := JNum 5 ]}.
Definition picked_file : File :=
  {| file_name := "notes.txt"; file_content := "hello" |}.
Definition project_page : ProjectDetail.state :=
  {| ProjectDetail.project := Some project_bot;
     ProjectDetail.prompts := [prompt_french; prompt_short];
     ProjectDetail.files := [];
     ProjectDetail.sessions := [];
     ProjectDetail.loading := false;
     ProjectDetail.activeTab := "prompts";
     ProjectDetail.editing := false;
     ProjectDetail.editForm :=
       {| ProjectDetail.form_name := "Bot";
          ProjectDetail.form_description := "";
          ProjectDetail.form_system_prompt :=
            "You are a helpful AI assistant." |};
     ProjectDetail.saving := false;
     ProjectDetail.showPromptModal := false;
     ProjectDetail.newPrompt :=
       {| ProjectDetail.prompt_name := "";
          ProjectDetail.prompt_content := "" |};
     ProjectDetail.creatingPrompt := false;
     ProjectDetail.uploading := false |}.

(** A project as returned by a create request. *)
Definition project_new : jsobj :=
  {[ "_id" := JStr "p3"; "name" := JStr "Docs";
     "system_prompt" := JStr "You are a helpful AI assistant." ]}.

(** A prompt as returned by a create request. *)
Definition prompt_new : jsobj :=
  {[ "_id" := JStr "q3"; "name" := JStr "Polite";
     "content" := JStr "Be polite."; "is_active" := JBool true ]}.

(** A project without a description, as the server returns it. *)
Definition project_loaded : ProjectDetail.project_data :=
  {| ProjectDetail.project_name := "Bot";
     ProjectDetail.project_description := None;
     ProjectDetail.project_system_prompt := "You are a helpful AI assistant.";
     ProjectDetail.project_rest := {[ "_id" := JStr "p1" ]} |}.

(** Auth state while the session is being restored. *)
Definition loading_auth : App.auth :=
  {| App.user := None; App.loading := true |}.

End Examples.

(** * Properties *)

(** Unfolding of the monad's combinators. *)
Ltac unfold_ui :=
  unfold run, call, confirm, await, finally, try_catch, throw, emit, modify,
    get, mbind, ui_bind, bind, mret, ui_ret, ret in *.

Lemma truthy_str_true s : truthy_str s = true ↔ s ≠ "".
Proof.
  unfold truthy_str. rewrite negb_true_iff, bool_decide_eq_false. done.
Qed.

Lemma truthy_str_false s : truthy_str s = false ↔ s = "".
Proof.
  unfold truthy_str. rewrite negb_false_iff, bool_decide_eq_true. done.
Qed.

Lemma slice_0_m1_snoc {A} (l : list A) (x : A) : slice_0_m1 (l ++ [x]) = l.
Proof.
  unfold slice_0_m1. rewrite length_app. simpl.
  replace (length l + 1 - 1) with (length l) by lia.
  by rewrite take_app_length.
Qed.

Lemma requests_app t1 t2 : requests (t1 ++ t2) = requests t1 ++ requests t2.
Proof. unfold requests. apply omap_app. Qed.

(** ** Chat page *)

Section ChatProperties.
Import Chat.
Variable projectId : option jsval.
Variable inputRef_current : bool.

(** The outcome of one submit of the chat form. *)
Local Abbreviation submit now sent listed st :=
  (run (handleSendMessage projectId inputRef_current now sent listed) st).

Lemma handleSendMessage_begin_blocked now st :
  trim (inputValue st) = "" ∨ sending st = true →
  run (handleSendMessage_begin now) st = (Normal None, st, [EPreventDefault]).
Proof.
  intros Hguard. unfold handleSendMessage_begin. unfold_ui.
  assert (negb (truthy_str (trim (inputValue st))) || sending st = true) as ->.
  { destruct Hguard as [Hempty | ->].
    - apply truthy_str_false in Hempty. by rewrite Hempty.
    - apply orb_true_r. }
  done.
Qed.

Lemma handleSendMessage_begin_accepted now st :
  trim (inputValue st) ≠ "" → sending st = false →
  run (handleSendMessage_begin now) st
  = (Normal (Some (trim (inputValue st))), sending_state now st,
     [EPreventDefault]).
Proof.
  intros Hne Hidle. unfold handleSendMessage_begin. unfold_ui.
  apply truthy_str_true in Hne. rewrite Hne, Hidle. simpl.
  unfold setInputValue, setSending, setMessages. unfold_ui. done.
Qed.

(** The exchange when the closure holds a session id. *)
Lemma handleSendMessage_exchange_existing sid message sent listed st :
  truthy sid = true →
  run (handleSendMessage_exchange projectId inputRef_current sid message
         sent listed) st
  = match sent with
    | Fulfilled response =>
        (Normal tt,
         {| project := project st; sessions := sessions st;
            currentSessionId := currentSessionId st;
            messages := messages st ++ [data_message response];
            inputValue := inputValue st; loading := loading st;
            sending := false; showSidebar := showSidebar st |},
         ERequest (Api.chatAPI_sendMessage projectId message sid)
         :: (if inputRef_current then [EFocusInput] else []))
    | Rejected err =>
        (Normal tt,
         {| project := project st; sessions := sessions st;
            currentSessionId := currentSessionId st;
            messages := slice_0_m1 (messages st);
            inputValue := inputValue st; loading := loading st;
            sending := false; showSidebar := showSidebar st |},
         [ERequest (Api.chatAPI_sendMessage projectId message sid);
          EConsoleError "Failed to send message:";
          EAlert (detail_or err "Failed to send message. Please try again.")]
         ++ (if inputRef_current then [EFocusInput] else []))
    end.
Proof.
  intros Hsid. unfold handleSendMessage_exchange.
  unfold setMessages, setSending, setCurrentSessionId, setSessions, focusInput.
  unfold_ui. rewrite Hsid. by destruct sent, inputRef_current.
Qed.

(** The exchange when the closure holds no session id. *)
Lemma handleSendMessage_exchange_new sid message response sessionsRes st :
  truthy sid = false →
  run (handleSendMessage_exchange projectId inputRef_current sid message
         (Fulfilled response) (Fulfilled sessionsRes)) st
  = (Normal tt,
     {| project := project st; sessions := sessionsRes;
        currentSessionId := data_session_id response;
        messages := messages st ++ [data_message response];
        inputValue := inputValue st; loading := loading st;
        sending := false; showSidebar := showSidebar st |},
     [ERequest (Api.chatAPI_sendMessage projectId message sid);
      ENavigate ("/project/" +:+ to_string projectId +:+ "/chat/"
                 +:+ to_string (data_session_id response)) true;
      ERequest (Api.chatAPI_listSessions projectId)]
     ++ (if inputRef_current then [EFocusInput] else [])).
Proof.
  intros Hsid. unfold handleSendMessage_exchange.
  unfold setMessages, setSending, setCurrentSessionId, setSessions, focusInput.
  unfold_ui. rewrite Hsid. by destruct inputRef_current.
Qed.

(** Whatever the outcomes, the exchange starts by sending the message. *)
Lemma handleSendMessage_exchange_sends sid message sent listed st :
  ∃ r st' t,
    run (handleSendMessage_exchange projectId inputRef_current sid message
           sent listed) st
    = (r, st', ERequest (Api.chatAPI_sendMessage projectId message sid) :: t).
Proof.
  unfold handleSendMessage_exchange.
  unfold setMessages, setSending, setCurrentSessionId, setSessions, focusInput.
  unfold_ui.
  destruct sent, (truthy sid), listed, inputRef_current; simpl; eauto.
Qed.

Lemma handleSendMessage_accepted now sent listed st :
  trim (inputValue st) ≠ "" → sending st = false →
  submit now sent listed st
  = let '(r, st', t) :=
      run (handleSendMessage_exchange projectId inputRef_current
             (currentSessionId st) (trim (inputValue st)) sent listed)
        (sending_state now st) in
    (r, st', EPreventDefault :: t).
Proof.
  intros Hne Hidle.
  pose proof (handleSendMessage_begin_accepted now st Hne Hidle) as Hbegin.
  unfold handleSendMessage. unfold_ui. rewrite Hbegin. simpl.
  by destruct (handleSendMessage_exchange _ _ _ _ _ _) as [[??]?].
Qed.

Lemma handleSendMessage_blocked now sent listed st :
  trim (inputValue st) = "" ∨ sending st = true →
  submit now sent listed st = (Normal tt, st, [EPreventDefault]).
Proof.
  intros Hguard.
  pose proof (handleSendMessage_begin_blocked now st Hguard) as Hbegin.
  unfold handleSendMessage. unfold_ui. by rewrite Hbegin.
Qed.

(** C5. When the trimmed input is empty, or while a send is in flight
    ([sending] is set, which the optimistic phase of an accepted submit
    does), submitting the chat form issues no request and leaves the whole
    state, in particular the message list and the current session id,
    unchanged; whenever a request is issued the trimmed input is
    non-empty and no send was in flight. *)
Theorem handleSendMessage_guard now sent listed st :
  (trim (inputValue st) = "" ∨ sending st = true →
   requests (trace (submit now sent listed st)) = []
   ∧ final_state (submit now sent listed st) = st
   ∧ messages (final_state (submit now sent listed st)) = messages st
   ∧ currentSessionId (final_state (submit now sent listed st))
     = currentSessionId st)
  ∧ (requests (trace (submit now sent listed st)) ≠ [] →
     trim (inputValue st) ≠ "" ∧ sending st = false)
  ∧ (trim (inputValue st) ≠ "" → sending st = false →
     sending (final_state (run (handleSendMessage_begin now) st)) = true
     ∧ requests (trace (submit now sent listed st)) ≠ []).
Proof.
  split; [|split].
  - intros Hguard. by rewrite (handleSendMessage_blocked _ _ _ _ Hguard).
  - intros Hreq.
    destruct (decide (trim (inputValue st) = "")) as [Hempty | Hne].
    { rewrite handleSendMessage_blocked in Hreq by (by left). done. }
    destruct (sending st) eqn:Hsending.
    { rewrite handleSendMessage_blocked in Hreq by (by right). done. }
    done.
  - intros Hne Hidle. split.
    + by rewrite handleSendMessage_begin_accepted.
    + rewrite handleSendMessage_accepted by done.
      destruct (handleSendMessage_exchange_sends (currentSessionId st)
                  (trim (inputValue st)) sent listed (sending_state now st))
        as (r & st' & t & ->).
      done.
Qed.

(** C1, as amended. For a submit with non-empty trimmed input, no send in
    flight and an existing session id: the user message is appended
    optimistically; exactly one request, the chat send, is issued; when it
    succeeds the returned message is appended, so the list ends two longer
    (user message, then assistant message); when it fails the last element
    is removed again, so the list ends as it was before the submit. *)
Theorem handleSendMessage_message_growth now listed st :
  trim (inputValue st) ≠ "" → sending st = false →
  truthy (currentSessionId st) = true →
  messages (final_state (run (handleSendMessage_begin now) st))
  = messages st ++ [userMessage (trim (inputValue st)) now]
  ∧ (∀ sent,
     requests (trace (submit now sent listed st))
     = [Api.chatAPI_sendMessage projectId (trim (inputValue st))
          (currentSessionId st)])
  ∧ (∀ response,
     messages (final_state (submit now (Fulfilled response) listed st))
     = messages st ++ [userMessage (trim (inputValue st)) now;
                       data_message response]
     ∧ length (messages (final_state
                           (submit now (Fulfilled response) listed st)))
       = length (messages st) + 2)
  ∧ (∀ err,
     messages (final_state (submit now (Rejected err) listed st))
     = messages st
     ∧ length (messages (final_state (submit now (Rejected err) listed st)))
       = length (messages st)).
Proof.
  intros Hne Hidle Hsid. split; [|split; [|split]].
  - by rewrite handleSendMessage_begin_accepted.
  - intros sent. rewrite handleSendMessage_accepted by done.
    rewrite handleSendMessage_exchange_existing by done.
    by destruct sent, inputRef_current.
  - intros response. rewrite handleSendMessage_accepted by done.
    rewrite handleSendMessage_exchange_existing by done.
    unfold final_state, sending_state. simpl.
    rewrite <-app_assoc. split; [done|].
    rewrite length_app. simpl. lia.
  - intros err. rewrite handleSendMessage_accepted by done.
    rewrite handleSendMessage_exchange_existing by done.
    unfold final_state, sending_state. simpl.
    by rewrite slice_0_m1_snoc.
Qed.

(** A send without a session id whose session-list refresh also succeeds:
    the returned session id is adopted, the route of that session is
    navigated to, and the assistant message follows the user message. A
    send with a session id keeps it. *)
Lemma handleSendMessage_session_adoption now response sessionsRes st :
  trim (inputValue st) ≠ "" → sending st = false →
  (truthy (currentSessionId st) = false →
   submit now (Fulfilled response) (Fulfilled sessionsRes) st
   = (Normal tt,
      {| project := project st; sessions := sessionsRes;
         currentSessionId := data_session_id response;
         messages := messages st ++ [userMessage (trim (inputValue st)) now;
                                     data_message response];
         inputValue := ""; loading := loading st;
         sending := false; showSidebar := showSidebar st |},
      [EPreventDefault;
       ERequest (Api.chatAPI_sendMessage projectId (trim (inputValue st))
                   (currentSessionId st));
       ENavigate ("/project/" +:+ to_string projectId +:+ "/chat/"
                  +:+ to_string (data_session_id response)) true;
       ERequest (Api.chatAPI_listSessions projectId)]
      ++ (if inputRef_current then [EFocusInput] else [])))
  ∧ (truthy (currentSessionId st) = true →
     ∀ listed,
     currentSessionId (final_state (submit now (Fulfilled response) listed st))
     = currentSessionId st).
Proof.
  intros Hne Hidle. split.
  - intros Hsid. rewrite handleSendMessage_accepted by done.
    rewrite handleSendMessage_exchange_new by done.
    unfold sending_state. simpl. by rewrite <-app_assoc.
  - intros Hsid listed. rewrite handleSendMessage_accepted by done.
    by rewrite handleSendMessage_exchange_existing by done.
Qed.

(** C10. Selecting the session that is already current does nothing: no
    navigation, no fetch, state unchanged; so selecting a session twice in
    a row is the same as selecting it once. *)
Theorem handleSelectSession_idempotent sid fetched fetched' st :
  (sid = currentSessionId st →
   run (handleSelectSession projectId sid fetched) st = (Normal tt, st, []))
  ∧ run (handleSelectSession projectId sid fetched;;
         handleSelectSession projectId sid fetched') st
    = run (handleSelectSession projectId sid fetched) st.
Proof.
  split.
  - intros ->. unfold handleSelectSession, strict_eq. unfold_ui.
    by rewrite bool_decide_eq_true_2.
  - unfold handleSelectSession, fetchSession, strict_eq.
    unfold setCurrentSessionId, setMessages. unfold_ui.
    destruct (bool_decide (sid = currentSessionId st)) eqn:Hcur; simpl.
    + by rewrite Hcur.
    + destruct fetched; simpl;
        by rewrite bool_decide_eq_true_2.
Qed.
End ChatProperties.

Lemma handleSendMessage_guard_witness :
  (trim (Chat.inputValue Examples.chat_blank) = ""
   ∨ Chat.sending Examples.chat_blank = true)
  ∧ requests
      (trace (run (Chat.handleSendMessage Examples.pid true Examples.clock
                     (Fulfilled Examples.reply) (Fulfilled []))
                Examples.chat_blank))
    = []
  ∧ final_state
      (run (Chat.handleSendMessage Examples.pid true Examples.clock
              (Fulfilled Examples.reply) (Fulfilled []))
         Examples.chat_blank)
    = Examples.chat_blank.
Proof.
  assert (trim (Chat.inputValue Examples.chat_blank) = ""
          ∨ Chat.sending Examples.chat_blank = true) as Hguard
    by (left; reflexivity).
  split; [exact Hguard|].
  destruct (handleSendMessage_guard Examples.pid true Examples.clock
              (Fulfilled Examples.reply) (Fulfilled []) Examples.chat_blank)
    as [Hblocked _].
  destruct (Hblocked Hguard) as (Hnone & Hsame & _).
  split; assumption.
Defined.

Lemma handleSendMessage_message_growth_witness :
  length
    (Chat.messages
       (final_state
          (run (Chat.handleSendMessage Examples.pid true Examples.clock
                  (Fulfilled Examples.reply) (Fulfilled []))
             Examples.chat_in_session)))
  = length (Chat.messages Examples.chat_in_session) + 2
  ∧ Chat.messages
      (final_state
         (run (Chat.handleSendMessage Examples.pid true Examples.clock
                 (Rejected Examples.upstream_failure) (Fulfilled []))
            Examples.chat_in_session))
    = Chat.messages Examples.chat_in_session.
Proof.
  destruct (handleSendMessage_message_growth Examples.pid true Examples.clock
              (Fulfilled []) Examples.chat_in_session)
    as (_ & _ & Hok & Hfail).
  - vm_compute. discriminate.
  - reflexivity.
  - reflexivity.
  - split.
    + apply (Hok Examples.reply).
    + apply (Hfail Examples.upstream_failure).
Defined.

(** C1, as stated, fails. The page shows session [s1] with one message,
    the input holds a non-empty message and no send is in flight; the chat
    send is rejected with status 502. After the handler the message list is
    the one from before the submit, so it has not grown by one. *)
Lemma handleSendMessage_failure_not_one_longer :
  trim (Chat.inputValue Examples.chat_in_session) ≠ ""
  ∧ Chat.sending Examples.chat_in_session = false
  ∧ truthy (Chat.currentSessionId Examples.chat_in_session) = true
  ∧ Chat.messages
      (final_state
         (run (Chat.handleSendMessage Examples.pid true Examples.clock
                 (Rejected Examples.upstream_failure) (Fulfilled []))
            Examples.chat_in_session))
    = [Examples.greeting]
  ∧ length
      (Chat.messages
         (final_state
            (run (Chat.handleSendMessage Examples.pid true Examples.clock
                    (Rejected Examples.upstream_failure) (Fulfilled []))
               Examples.chat_in_session)))
    ≠ length (Chat.messages Examples.chat_in_session) + 1.
Proof.
  split; [vm_compute; discriminate|].
  split; [reflexivity|].
  split; [reflexivity|].
  split; [vm_compute; reflexivity|].
  vm_compute. discriminate.
Qed.

(** C3 at the failing input: no session yet, the chat send succeeds and
    returns session [s1] with the assistant's reply, but the refresh of the
    session list is rejected. The session id is adopted and the route is
    changed, yet the [catch] block runs: the user message is removed, the
    reply is never appended and the user is told the send failed. *)
Lemma handleSendMessage_refresh_failure_drops_reply :
  run (Chat.handleSendMessage Examples.pid true Examples.clock
         (Fulfilled Examples.reply) (Rejected Examples.network_failure))
    Examples.chat_fresh
  = (Normal tt,
     {| Chat.project := None; Chat.sessions := [];
        Chat.currentSessionId := Some (JStr "s1");
        Chat.messages := [];
        Chat.inputValue := "";
        Chat.loading := false; Chat.sending := false;
        Chat.showSidebar := true |},
     [EPreventDefault;
      ERequest (Api.chatAPI_sendMessage Examples.pid "Hello" (Some JNull));
      ENavigate "/project/p1/chat/s1" true;
      ERequest (Api.chatAPI_listSessions Examples.pid);
      EConsoleError "Failed to send message:";
      EAlert (Some (JStr "Failed to send message. Please try again."));
      EFocusInput]).
Proof. vm_compute. reflexivity. Qed.

Lemma handleSelectSession_idempotent_witness :
  run (Chat.handleSelectSession Examples.pid (Some (JStr "s1"))
         (Fulfilled Examples.session_s1)) Examples.chat_in_session
  = (Normal tt, Examples.chat_in_session, []).
Proof.
  destruct (handleSelectSession_idempotent Examples.pid (Some (JStr "s1"))
              (Fulfilled Examples.session_s1) (Fulfilled Examples.session_s1)
              Examples.chat_in_session) as [Hsame _].
  apply Hsame. reflexivity.
Defined.

(** ** Service layer *)

Lemma response_rejected_401 {A} (error : api_error) (b : Api.browser) :
  status <$> response error = Some 401%Z →
  run (Api.response_rejected (A:=A) error) b
  = (Thrown error,
     {| Api.localStorage := delete "token" (Api.localStorage b);
        Api.pathname := Api.pathname b |},
     if bool_decide (Api.pathname b ≠ "/login")
     then [ELocationAssign "/login"] else []).
Proof.
  intros H401. unfold Api.response_rejected, Api.removeItem. unfold_ui.
  rewrite bool_decide_eq_true_2 by done. simpl.
  by destruct (bool_decide (Api.pathname b ≠ "/login")).
Qed.

Lemma response_rejected_other {A} (error : api_error) (b : Api.browser) :
  status <$> response error ≠ Some 401%Z →
  run (Api.response_rejected (A:=A) error) b = (Thrown error, b, []).
Proof.
  intros Hother. unfold Api.response_rejected. unfold_ui.
  by rewrite bool_decide_eq_false_2.
Qed.

(** C2. The request interceptor adds [Authorization: Bearer <token>] when
    storage holds a (non-empty) token and otherwise returns the request as
    it is. The response interceptor removes the stored token for a response
    with status 401, redirecting to [/login] unless the browser is already
    there; for any other status, for a rejection without a response and for
    a fulfilled response it leaves the browser, hence the stored token,
    unchanged. The rejection is passed on in every case. *)
Theorem auth_interceptors (b : Api.browser) (config : request_config) :
  (∀ t, Api.getItem "token" b = Some t → t ≠ "" →
     Api.request_interceptor b config
     = {| method := method config; url := url config; data := data config;
          headers := <["Authorization" := "Bearer " +:+ t]> (headers config) |}
     ∧ headers (Api.request_interceptor b config) !! "Authorization"
       = Some ("Bearer " +:+ t))
  ∧ (Api.getItem "token" b = None ∨ Api.getItem "token" b = Some "" →
     Api.request_interceptor b config = config)
  ∧ (∀ (A : Type) error, status <$> response error = Some 401%Z →
     result (run (Api.response_interceptor (A:=A) (Rejected error)) b)
     = Thrown error
     ∧ Api.getItem "token"
         (final_state (run (Api.response_interceptor (A:=A) (Rejected error)) b))
       = None
     ∧ Api.localStorage
         (final_state (run (Api.response_interceptor (A:=A) (Rejected error)) b))
       = delete "token" (Api.localStorage b)
     ∧ trace (run (Api.response_interceptor (A:=A) (Rejected error)) b)
       = if bool_decide (Api.pathname b = "/login")
         then [] else [ELocationAssign "/login"])
  ∧ (∀ (A : Type) error, status <$> response error ≠ Some 401%Z →
     run (Api.response_interceptor (A:=A) (Rejected error)) b
     = (Thrown error, b, []))
  ∧ (∀ (A : Type) (resp : A),
     run (Api.response_interceptor (Fulfilled resp)) b = (Normal resp, b, [])).
Proof.
  split; [|split; [|split; [|split]]].
  - intros t Htoken Hne. apply truthy_str_true in Hne.
    unfold Api.request_interceptor. rewrite Htoken, Hne.
    split; [done|]. simpl. apply lookup_insert_eq.
  - intros [Hnone | Hempty]; unfold Api.request_interceptor.
    + by rewrite Hnone.
    + by rewrite Hempty.
  - intros A error H401. simpl. rewrite response_rejected_401 by done.
    unfold result, final_state, trace, Api.getItem. simpl.
    split; [done|]. split; [apply lookup_delete_eq|]. split; [done|].
    destruct (decide (Api.pathname b = "/login")) as [Hat | Hnot].
    + rewrite (bool_decide_eq_true_2 _ Hat).
      by rewrite bool_decide_eq_false_2 by (by intros Hne; apply Hne).
    + rewrite (bool_decide_eq_false_2 _ Hnot).
      by rewrite bool_decide_eq_true_2.
  - intros A error Hother. simpl. by apply response_rejected_other.
  - done.
Qed.

Lemma auth_interceptors_witness :
  headers (Api.request_interceptor Examples.signed_in Api.projectAPI_list)
    !! "Authorization" = Some "Bearer abc.def.ghi"
  ∧ Api.getItem "token"
      (final_state (run (Api.response_interceptor (A:=unit)
                           (Rejected Examples.unauthorized))
                      Examples.signed_in)) = None
  ∧ trace (run (Api.response_interceptor (A:=unit)
                  (Rejected Examples.unauthorized)) Examples.signed_in)
    = [ELocationAssign "/login"].
Proof.
  destruct (auth_interceptors Examples.signed_in Api.projectAPI_list)
    as (Hadd & _ & H401 & _).
  destruct (Hadd "abc.def.ghi") as [_ Hheader];
    [reflexivity | discriminate |].
  destruct (H401 unit Examples.unauthorized) as (_ & Hgone & _ & Hredirect);
    [reflexivity|].
  split; [exact Hheader|]. split; [exact Hgone|]. exact Hredirect.
Defined.

(** ** Route guards *)

Section RouteProperties.
Import App.

Lemma ProtectedRoute_signed_out a children :
  loading a = false → user a = None →
  ProtectedRoute a children = Navigate "/login" true.
Proof.
  intros Hloaded Hnone. unfold ProtectedRoute. by rewrite Hloaded, Hnone.
Qed.

Lemma PublicRoute_signed_in a children :
  loading a = false → is_Some (user a) →
  PublicRoute a children = Navigate "/dashboard" true.
Proof.
  intros Hloaded Huser. unfold PublicRoute.
  by rewrite Hloaded, bool_decide_eq_true_2.
Qed.

(** C8, as amended. Once loading has finished and no user is present,
    every protected route ([/dashboard] and the [/project/...] routes)
    renders a redirect to [/login]; [/] and the catch-all route render a
    redirect to [/dashboard]; none of the routes other than [/login] and
    [/register] renders a page component. [/login] and [/register]
    render a redirect to [/dashboard] when a user is present and loading
    has finished, and the loading indicator while loading. *)
Theorem route_guards (a : auth) (path : string) (e : element) :
  (path, e) ∈ routes a →
  (loading a = false → user a = None →
   (path ∈ protected_paths → e = Navigate "/login" true)
   ∧ (path = "/" ∨ path = "*" → e = Navigate "/dashboard" true)
   ∧ (path ≠ "/login" → path ≠ "/register" → renders_page e = false))
  ∧ (path = "/login" ∨ path = "/register" → is_Some (user a) →
     (loading a = false → e = Navigate "/dashboard" true)
     ∧ (loading a = true → e = LoadingDots))
  ∧ (path ≠ "/login" → path ≠ "/register" →
     path ∈ protected_paths ∨ path = "/" ∨ path = "*").
Proof.
  intros Hroute. unfold routes in Hroute.
  repeat (apply elem_of_cons in Hroute as [[= -> ->] | Hroute]);
    [..| by apply elem_of_nil in Hroute].
  all: split; [intros Hloaded Hnone; split; [|split] | split].
  all: try rewrite !ProtectedRoute_signed_out by done.
  all: try (intros Hin; done).
  all: try (intros Hin; exfalso; unfold protected_paths in Hin;
            repeat (apply elem_of_cons in Hin as [[=] | Hin]);
            by apply elem_of_nil in Hin).
  all: try (by intros [[=] | [=]]).
  all: try (intros _ Huser; split; intros Hloaded;
            unfold PublicRoute; rewrite Hloaded; [|done];
            by rewrite bool_decide_eq_true_2).
  all: try (intros _ _; unfold protected_paths; set_solver).
  all: try (intros _ _; unfold PublicRoute; rewrite Hloaded, Hnone;
            by rewrite bool_decide_eq_false_2 by (by intros [??])).
Qed.
End RouteProperties.

Lemma route_guards_witness :
  ("/dashboard", App.Navigate "/login" true) ∈ App.routes Examples.signed_out_auth
  ∧ App.renders_page (App.Navigate "/login" true) = false.
Proof.
  assert (("/dashboard", App.ProtectedRoute Examples.signed_out_auth
                           (App.Page App.Dashboard))
          ∈ App.routes Examples.signed_out_auth) as Hroute.
  { unfold App.routes. do 2 apply list_elem_of_further.
    apply list_elem_of_here. }
  destruct (route_guards Examples.signed_out_auth "/dashboard" _ Hroute)
    as [Hout _].
  destruct Hout as (Hlogin & _ & Hnopage); [reflexivity | reflexivity |].
  split.
  - rewrite <-Hlogin; [exact Hroute|].
    unfold App.protected_paths. apply list_elem_of_here.
  - rewrite <-Hlogin.
    + apply Hnopage; discriminate.
    + unfold App.protected_paths. apply list_elem_of_here.
Defined.

(** C8, as stated, fails: [/] is a route other than [/login] and
    [/register], and with loading finished and no user it renders a
    redirect to [/dashboard], not to [/login]. *)
Lemma root_route_redirects_to_dashboard :
  App.loading Examples.signed_out_auth = false
  ∧ App.user Examples.signed_out_auth = None
  ∧ ("/", App.Navigate "/dashboard" true) ∈ App.routes Examples.signed_out_auth
  ∧ "/" ≠ "/login" ∧ "/" ≠ "/register"
  ∧ App.Navigate "/dashboard" true ≠ App.Navigate "/login" true
  ∧ ¬ (∀ a path e, (path, e) ∈ App.routes a →
         path ≠ "/login" → path ≠ "/register" →
         App.loading a = false → App.user a = None →
         e = App.Navigate "/login" true).
Proof.
  assert (("/", App.Navigate "/dashboard" true)
          ∈ App.routes Examples.signed_out_auth) as Hroot.
  { unfold App.routes. do 6 apply list_elem_of_further.
    apply list_elem_of_here. }
  repeat split; try done.
  intros Hall.
  assert (App.Navigate "/dashboard" true = App.Navigate "/login" true)
    as Habsurd by (by apply (Hall Examples.signed_out_auth "/")).
  discriminate Habsurd.
Qed.

(** ** Register page *)

Section RegisterProperties.
Import Register.

Lemma handleSubmit_mismatch registered st :
  password st ≠ confirmPassword st →
  run (handleSubmit registered) st
  = (Normal tt,
     {| name := name st; email := email st; password := password st;
        confirmPassword := confirmPassword st;
        error := Some (JStr "Passwords do not match");
        loading := loading st |},
     [EPreventDefault]).
Proof.
  intros Hne. unfold handleSubmit, setError. unfold_ui.
  by rewrite bool_decide_eq_false_2.
Qed.

Lemma handleSubmit_short registered st :
  password st = confirmPassword st → String.length (password st) < 6 →
  run (handleSubmit registered) st
  = (Normal tt,
     {| name := name st; email := email st; password := password st;
        confirmPassword := confirmPassword st;
        error := Some (JStr "Password must be at least 6 characters");
        loading := loading st |},
     [EPreventDefault]).
Proof.
  intros Heq Hshort. unfold handleSubmit, setError. unfold_ui.
  rewrite bool_decide_eq_true_2 by done. simpl.
  apply Nat.ltb_lt in Hshort. by rewrite Hshort.
Qed.

Lemma handleSubmit_valid registered st :
  password st = confirmPassword st → 6 ≤ String.length (password st) →
  ∃ st' t,
    run (handleSubmit registered) st
    = (Normal tt, st',
       EPreventDefault :: ERegister (email st) (password st) (name st) :: t).
Proof.
  intros Heq Hlong.
  unfold handleSubmit, register, setError, setLoading. unfold_ui.
  rewrite bool_decide_eq_true_2 by done. simpl.
  assert ((String.length (password st) <? 6) = false) as ->
    by (apply Nat.ltb_ge; lia).
  destruct registered; simpl; eauto.
Qed.

(** C9. [register] is called only when the password equals its
    confirmation and has at least 6 characters, and then it is called
    with the form's email, password and name; a submission violating
    either condition calls nothing and sets an error message. *)
Theorem handleSubmit_validation registered st :
  (∀ e p n,
     ERegister e p n ∈ trace (run (handleSubmit registered) st) →
     password st = confirmPassword st ∧ 6 ≤ String.length (password st))
  ∧ (password st ≠ confirmPassword st →
     trace (run (handleSubmit registered) st) = [EPreventDefault]
     ∧ error (final_state (run (handleSubmit registered) st))
       = Some (JStr "Passwords do not match"))
  ∧ (password st = confirmPassword st → String.length (password st) < 6 →
     trace (run (handleSubmit registered) st) = [EPreventDefault]
     ∧ error (final_state (run (handleSubmit registered) st))
       = Some (JStr "Password must be at least 6 characters"))
  ∧ (password st = confirmPassword st → 6 ≤ String.length (password st) →
     ERegister (email st) (password st) (name st)
     ∈ trace (run (handleSubmit registered) st)).
Proof.
  split; [|split; [|split]].
  - intros e p n Hcalled.
    destruct (decide (password st = confirmPassword st)) as [Heq | Hne].
    + split; [done|].
      destruct (decide (String.length (password st) < 6)) as [Hshort | Hlong];
        [|lia].
      rewrite handleSubmit_short in Hcalled by done.
      by apply list_elem_of_singleton in Hcalled.
    + rewrite handleSubmit_mismatch in Hcalled by done.
      by apply list_elem_of_singleton in Hcalled.
  - intros Hne. by rewrite handleSubmit_mismatch.
  - intros Heq Hshort. by rewrite handleSubmit_short.
  - intros Heq Hlong.
    destruct (handleSubmit_valid registered st Heq Hlong) as (st' & t & ->).
    apply list_elem_of_further, list_elem_of_here.
Qed.
End RegisterProperties.

Lemma handleSubmit_validation_witness :
  ERegister "ann@example.org" "secret1" "Ann"
  ∈ trace (run (Register.handleSubmit (Fulfilled tt)) Examples.form_ok)
  ∧ trace (run (Register.handleSubmit (Fulfilled tt)) Examples.form_mismatch)
    = [EPreventDefault].
Proof.
  destruct (handleSubmit_validation (Fulfilled tt) Examples.form_ok)
    as (_ & _ & _ & Hcall).
  destruct (handleSubmit_validation (Fulfilled tt) Examples.form_mismatch)
    as (_ & Hmismatch & _).
  split.
  - apply Hcall; [reflexivity | vm_compute; lia].
  - apply Hmismatch. discriminate.
Defined.

(** ** Lists of records identified by a key *)

Section KeyedLists.
Context {A K : Type} `{EqDecision K} (key : A → K).

Lemma filter_all (P : A → Prop) `{!∀ x, Decision (P x)} (l : list A) :
  Forall P l → filter P l = l.
Proof.
  induction 1 as [|x l HPx _ IH]; [done|].
  by rewrite filter_cons_True, IH.
Qed.

(** Filtering out the key of the [i]-th element removes that element
    only, when keys are distinct. *)
Lemma filter_key_delete (l : list A) (i : nat) (x : A) :
  l !! i = Some x → NoDup (key <$> l) →
  filter (λ y, key y ≠ key x) l = delete i l.
Proof.
  revert i. induction l as [|y l IH]; intros i Hi Hnodup; [done|].
  rewrite fmap_cons in Hnodup. apply NoDup_cons in Hnodup as [Hfresh Hnodup].
  destruct i as [|i]; simpl in *.
  - injection Hi as ->.
    rewrite filter_cons_False by (by intros Hne; apply Hne).
    apply filter_all, Forall_forall. intros z Hz Heq.
    apply Hfresh. rewrite <-Heq. by apply list_elem_of_fmap_2.
  - rewrite filter_cons_True.
    + by rewrite (IH i).
    + intros Heq. apply Hfresh.
      assert (key x ∈ key <$> l) as Hin
        by (apply list_elem_of_fmap_2; by eapply list_elem_of_lookup_2).
      congruence.
Qed.

(** Mapping an update over the elements with the key of the [i]-th element
    updates that element only, when keys are distinct. *)
Lemma fmap_key_insert (g : A → A) (l : list A) (i : nat) (x : A) :
  l !! i = Some x → NoDup (key <$> l) →
  (λ y, if bool_decide (key y = key x) then g y else y) <$> l
  = <[i := g x]> l.
Proof.
  intros Hi Hnodup. apply list_eq. intros j.
  rewrite list_lookup_fmap.
  destruct (decide (i = j)) as [<- | Hij].
  - rewrite list_lookup_insert_eq by (by eapply lookup_lt_Some).
    rewrite Hi. simpl. by rewrite bool_decide_eq_true_2.
  - rewrite list_lookup_insert_ne by done.
    destruct (l !! j) as [y|] eqn:Hj; [|done]. simpl.
    rewrite bool_decide_eq_false_2; [done|].
    intros Heq. apply Hij.
    apply (NoDup_lookup (key <$> l) i j (key x) Hnodup).
    + by rewrite list_lookup_fmap, Hi.
    + rewrite list_lookup_fmap, Hj. simpl. by rewrite Heq.
Qed.
End KeyedLists.

(** ** Dashboard page *)

Section DashboardProperties.
Import Dashboard.

Lemma handleDeleteProject_declined projectId deleted st :
  run (handleDeleteProject projectId false deleted) st
  = (Normal tt, st,
     [EPreventDefault; EStopPropagation;
      EConfirm delete_confirmation false]).
Proof. done. Qed.

Lemma handleDeleteProject_confirmed projectId deleted st :
  run (handleDeleteProject projectId true deleted) st
  = match deleted with
    | Fulfilled _ =>
        (Normal tt,
         {| projects := filter (λ p, p !! "_id" ≠ projectId) (projects st);
            loading := loading st; showModal := showModal st;
            newProject := newProject st; creating := creating st;
            error := error st |},
         [EPreventDefault; EStopPropagation;
          EConfirm delete_confirmation true;
          ERequest (Api.projectAPI_delete projectId)])
    | Rejected _ =>
        (Normal tt, st,
         [EPreventDefault; EStopPropagation;
          EConfirm delete_confirmation true;
          ERequest (Api.projectAPI_delete projectId);
          EConsoleError "Failed to delete project:"])
    end.
Proof. by destruct deleted. Qed.

(** C7. The handler first shows a confirmation dialog whose text includes
    "All associated data will be lost"; any request it issues comes after
    the dialog and only when the dialog was confirmed, and it is the
    single delete request for that project. When the dialog is declined
    no request is made and the state is unchanged. After a successful
    delete the local list is the old one without the projects of the
    matching id: the other projects stay, in order, and with distinct ids
    exactly the one matching project is removed. *)
Theorem handleDeleteProject_requires_confirmation
    projectId confirmed deleted st :
  (∃ pre post,
     delete_confirmation = pre +:+ "All associated data will be lost" +:+ post)
  ∧ (∃ t,
     trace (run (handleDeleteProject projectId confirmed deleted) st)
     = [EPreventDefault; EStopPropagation;
        EConfirm delete_confirmation confirmed] ++ t
     ∧ requests t
       = if confirmed then [Api.projectAPI_delete projectId] else [])
  ∧ (confirmed = false →
     requests (trace (run (handleDeleteProject projectId confirmed deleted) st))
     = []
     ∧ final_state (run (handleDeleteProject projectId confirmed deleted) st)
       = st)
  ∧ (confirmed = true → ∀ response, deleted = Fulfilled response →
     projects (final_state
                 (run (handleDeleteProject projectId confirmed deleted) st))
     = filter (λ p, p !! "_id" ≠ projectId) (projects st)
     ∧ (∀ p, p ∈ projects (final_state
                 (run (handleDeleteProject projectId confirmed deleted) st))
             ↔ p ∈ projects st ∧ p !! "_id" ≠ projectId)
     ∧ (∀ i p, projects st !! i = Some p → p !! "_id" = projectId →
               NoDup ((λ q : jsobj, q !! "_id") <$> projects st) →
               projects (final_state
                 (run (handleDeleteProject projectId confirmed deleted) st))
               = delete i (projects st))).
Proof.
  split; [|split; [|split]].
  - by exists "Are you sure you want to delete this project? ", ".".
  - destruct confirmed.
    + rewrite handleDeleteProject_confirmed.
      destruct deleted; eexists; (split; [reflexivity | done]).
    + rewrite handleDeleteProject_declined. by exists [].
  - intros ->. by rewrite handleDeleteProject_declined.
  - intros -> response ->. rewrite handleDeleteProject_confirmed.
    unfold final_state. simpl. split; [done|]. split.
    + intros p. rewrite list_elem_of_filter. tauto.
    + intros i p Hi <- Hnodup.
      by apply (filter_key_delete (λ q : jsobj, q !! "_id")).
Qed.
End DashboardProperties.

Lemma handleDeleteProject_requires_confirmation_witness :
  requests (trace (run (Dashboard.handleDeleteProject (Some (JStr "p1")) false
                          (Fulfilled tt)) Examples.dashboard)) = []
  ∧ Dashboard.projects
      (final_state (run (Dashboard.handleDeleteProject (Some (JStr "p1")) true
                           (Fulfilled tt)) Examples.dashboard))
    = [Examples.project_faq].
Proof.
  destruct (handleDeleteProject_requires_confirmation (Some (JStr "p1")) false
              (Fulfilled tt) Examples.dashboard) as (_ & _ & Hdeclined & _).
  destruct (handleDeleteProject_requires_confirmation (Some (JStr "p1")) true
              (Fulfilled tt) Examples.dashboard) as (_ & _ & _ & Hdeleted).
  split.
  - apply Hdeclined. reflexivity.
  - destruct (Hdeleted eq_refl tt eq_refl) as (_ & _ & Hone).
    rewrite (Hone 0 Examples.project_bot);
      [reflexivity | reflexivity | reflexivity |].
    apply (bool_decide_unpack _). vm_compute. exact I.
Defined.

(** ** Project page *)

Section ProjectDetailProperties.
Import ProjectDetail.
Variable projectId : option jsval.
Variable fileInputRef_current : bool.

Lemma handleTogglePrompt_run prompt updated st :
  run (handleTogglePrompt prompt updated) st
  = match updated with
    | Fulfilled _ =>
        (Normal tt,
         {| project := project st;
            prompts :=
              (λ p, if strict_eq (p !! "_id") (prompt !! "_id")
                    then <["is_active" := not_is_active p]> p
                    else p) <$> prompts st;
            files := files st; sessions := sessions st;
            loading := loading st; activeTab := activeTab st;
            editing := editing st; editForm := editForm st;
            saving := saving st; showPromptModal := showPromptModal st;
            newPrompt := newPrompt st; creatingPrompt := creatingPrompt st;
            uploading := uploading st |},
         [ERequest (Api.promptAPI_update (prompt !! "_id")
                      {[ "is_active" := not_is_active prompt ]})])
    | Rejected _ =>
        (Normal tt, st,
         [ERequest (Api.promptAPI_update (prompt !! "_id")
                      {[ "is_active" := not_is_active prompt ]});
          EConsoleError "Failed to toggle prompt:"])
    end.
Proof. by destruct updated. Qed.

(** C4. Toggling a prompt of the list sends one update request whose
    payload has the single field [is_active], set to the negation of the
    prompt's current value. In the resulting list every prompt keeps all
    its fields other than [is_active], and every prompt with another id is
    unchanged altogether. With distinct ids, the new list on success is the
    old one with the toggled prompt's [is_active] negated, every other
    position and the rest of the page state being unchanged; on failure
    nothing changes. *)
Theorem handleTogglePrompt_partial_update prompt i updated st :
  prompts st !! i = Some prompt →
  requests (trace (run (handleTogglePrompt prompt updated) st))
  = [Api.promptAPI_update (prompt !! "_id")
       {[ "is_active" := not_is_active prompt ]}]
  ∧ data (Api.promptAPI_update (prompt !! "_id")
            {[ "is_active" := not_is_active prompt ]})
    = JsonData {[ "is_active" := not_is_active prompt ]}
  ∧ dom ({[ "is_active" := not_is_active prompt ]} : jsobj)
    = {[ "is_active" ]}
  ∧ (∀ b, prompt !! "is_active" = Some (JBool b) →
          not_is_active prompt = JBool (negb b))
  ∧ (∀ j p, prompts st !! j = Some p →
       ∃ p',
         prompts (final_state (run (handleTogglePrompt prompt updated) st)) !! j
         = Some p'
         ∧ (∀ k, k ≠ "is_active" → p' !! k = p !! k)
         ∧ (p !! "_id" ≠ prompt !! "_id" → p' = p))
  ∧ (NoDup ((λ p : jsobj, p !! "_id") <$> prompts st) →
     final_state (run (handleTogglePrompt prompt updated) st)
     = match updated with
       | Fulfilled _ =>
           {| project := project st;
              prompts :=
                <[i := <["is_active" := not_is_active prompt]> prompt]>
                  (prompts st);
              files := files st; sessions := sessions st;
              loading := loading st; activeTab := activeTab st;
              editing := editing st; editForm := editForm st;
              saving := saving st; showPromptModal := showPromptModal st;
              newPrompt := newPrompt st; creatingPrompt := creatingPrompt st;
              uploading := uploading st |}
       | Rejected _ => st
       end
     ∧ ∀ j, j ≠ i →
         prompts (final_state (run (handleTogglePrompt prompt updated) st)) !! j
         = prompts st !! j).
Proof.
  intros Hi. rewrite handleTogglePrompt_run. unfold strict_eq.
  split; [by destruct updated|]. split; [done|].
  split; [apply dom_singleton_L|].
  split; [by intros b; unfold not_is_active; intros ->|].
  split.
  - intros j p Hj.
    destruct updated as [response | err]; unfold final_state; simpl;
      [|by exists p].
    rewrite list_lookup_fmap, Hj. simpl.
    destruct (decide (p !! "_id" = prompt !! "_id")) as [Hsame | Hother].
    + rewrite bool_decide_eq_true_2 by done.
      eexists. split; [done|]. split; [|done].
      intros k Hk. by apply lookup_insert_ne.
    + rewrite bool_decide_eq_false_2 by done. by exists p.
  - intros Hnodup.
    pose proof (fmap_key_insert (λ p : jsobj, p !! "_id")
                  (λ p, <["is_active" := not_is_active p]> p)
                  (prompts st) i prompt Hi Hnodup) as Hmap.
    destruct updated as [response | err]; unfold final_state; simpl;
      [|done].
    rewrite Hmap. split; [done|].
    intros j Hji. by apply list_lookup_insert_ne.
Qed.

Lemma handleFileUpload_run file uploaded st :
  run (handleFileUpload projectId fileInputRef_current (Some file) uploaded) st
  = match uploaded with
    | Fulfilled response =>
        (Normal tt,
         {| project := project st; prompts := prompts st;
            files := response :: files st; sessions := sessions st;
            loading := loading st; activeTab := activeTab st;
            editing := editing st; editForm := editForm st;
            saving := saving st; showPromptModal := showPromptModal st;
            newPrompt := newPrompt st; creatingPrompt := creatingPrompt st;
            uploading := false |},
         ERequest (Api.fileAPI_upload projectId file)
         :: (if fileInputRef_current then [EResetFileInput] else []))
    | Rejected err =>
        (Normal tt,
         {| project := project st; prompts := prompts st;
            files := files st; sessions := sessions st;
            loading := loading st; activeTab := activeTab st;
            editing := editing st; editForm := editForm st;
            saving := saving st; showPromptModal := showPromptModal st;
            newPrompt := newPrompt st; creatingPrompt := creatingPrompt st;
            uploading := false |},
         [ERequest (Api.fileAPI_upload projectId file);
          EConsoleError "Failed to upload file:";
          EAlert (detail_or err "File upload failed")]
         ++ (if fileInputRef_current then [EResetFileInput] else []))
    end.
Proof. by destruct uploaded, fileInputRef_current. Qed.

(** C6. Without a selected file the handler issues no request and leaves
    the state, in particular the file list, unchanged. With a selected
    file it issues exactly one request: a POST of multipart form data
    whose only entry is the file under the name "file"; on success the
    returned record is put in front of the file list, on failure the list
    is unchanged. *)
Theorem handleFileUpload_single_request uploaded st :
  run (handleFileUpload projectId fileInputRef_current None uploaded) st
  = (Normal tt, st, [])
  ∧ (∀ file,
     requests (trace (run (handleFileUpload projectId fileInputRef_current
                             (Some file) uploaded) st))
     = [Api.fileAPI_upload projectId file]
     ∧ method (Api.fileAPI_upload projectId file) = POST
     ∧ data (Api.fileAPI_upload projectId file) = FormData [("file", file)]
     ∧ headers (Api.fileAPI_upload projectId file) !! "Content-Type"
       = Some "multipart/form-data")
  ∧ (∀ file response,
     files (final_state (run (handleFileUpload projectId fileInputRef_current
                                (Some file) (Fulfilled response)) st))
     = response :: files st)
  ∧ (∀ file err,
     files (final_state (run (handleFileUpload projectId fileInputRef_current
                                (Some file) (Rejected err)) st))
     = files st).
Proof.
  split; [done|]. split; [|split].
  - intros file. rewrite handleFileUpload_run.
    split; [by destruct uploaded, fileInputRef_current|].
    split; [done|]. split; [done|].
    unfold Api.fileAPI_upload. simpl. apply lookup_insert_eq.
  - intros file response. by rewrite handleFileUpload_run.
  - intros file err. by rewrite handleFileUpload_run.
Qed.
End ProjectDetailProperties.

Lemma handleTogglePrompt_partial_update_witness :
  ProjectDetail.prompts
    (final_state (run (ProjectDetail.handleTogglePrompt Examples.prompt_french
                         (Fulfilled tt)) Examples.project_page))
  = [ <["is_active" := JBool false]> Examples.prompt_french;
      Examples.prompt_short ].
Proof.
  destruct (handleTogglePrompt_partial_update Examples.prompt_french 0
              (Fulfilled tt) Examples.project_page)
    as (_ & _ & _ & _ & _ & Hdistinct).
  - reflexivity.
  - destruct Hdistinct as [Hstate _].
    + apply (bool_decide_unpack _). vm_compute. exact I.
    + rewrite Hstate. reflexivity.
Defined.

Lemma handleFileUpload_single_request_witness :
  requests (trace (run (ProjectDetail.handleFileUpload Examples.pid true
                          (Some Examples.picked_file)
                          (Fulfilled Examples.stored_file))
                     Examples.project_page))
  = [Api.fileAPI_upload Examples.pid Examples.picked_file]
  ∧ ProjectDetail.files
      (final_state (run (ProjectDetail.handleFileUpload Examples.pid true
                           (Some Examples.picked_file)
                           (Fulfilled Examples.stored_file))
                      Examples.project_page))
    = [Examples.stored_file].
Proof.
  destruct (handleFileUpload_single_request Examples.pid true
              (Fulfilled Examples.stored_file) Examples.project_page)
    as (_ & Hrequest & Hfiles & _).
  destruct (Hrequest Examples.picked_file) as (Hone & _).
  split; [exact Hone|].
  apply (Hfiles Examples.picked_file Examples.stored_file).
Defined.

(** * Further properties *)

(** Sequencing of handlers. *)
Lemma run_bind_normal {S A B} (m : ui S A) (k : A → ui S B) st a st1 t1 :
  run m st = (Normal a, st1, t1) →
  run (m ≫= k) st
  = (result (run (k a) st1), final_state (run (k a) st1),
     t1 ++ trace (run (k a) st1)).
Proof.
  unfold run, mbind, ui_bind, bind, result, final_state, trace.
  intros ->. by destruct (k a st1) as [[??]?].
Qed.

(** ** Service layer *)

(** X1. The request interceptor touches nothing but the [Authorization]
    header: method, url, body and every other header are kept. Applying it
    twice gives the same request as applying it once. *)
Theorem request_interceptor_frame (b : Api.browser) (config : request_config) :
  method (Api.request_interceptor b config) = method config
  ∧ url (Api.request_interceptor b config) = url config
  ∧ data (Api.request_interceptor b config) = data config
  ∧ (∀ k, k ≠ "Authorization" →
       headers (Api.request_interceptor b config) !! k = headers config !! k)
  ∧ Api.request_interceptor b (Api.request_interceptor b config)
    = Api.request_interceptor b config.
Proof.
  unfold Api.request_interceptor.
  destruct (Api.getItem "token" b) as [t|]; [|done].
  destruct (truthy_str t); [|done]. simpl.
  repeat split; try done.
  - intros k Hk. by apply lookup_insert_ne.
  - by rewrite insert_insert_eq.
Qed.



(** ** Chat page *)

Section ChatFurther.
Import Chat.
Variable projectId : option jsval.
Variable inputRef_current : bool.

(** The outcome of one submit of the chat form. *)
Local Abbreviation submit now sent listed st :=
  (run (handleSendMessage projectId inputRef_current now sent listed) st).

(** A rejected send, with or without a session id. *)
Lemma handleSendMessage_exchange_rejected sid message err listed st :
  run (handleSendMessage_exchange projectId inputRef_current sid message
         (Rejected err) listed) st
  = (Normal tt,
     {| project := project st; sessions := sessions st;
        currentSessionId := currentSessionId st;
        messages := slice_0_m1 (messages st);
        inputValue := inputValue st; loading := loading st;
        sending := false; showSidebar := showSidebar st |},
     [ERequest (Api.chatAPI_sendMessage projectId message sid);
      EConsoleError "Failed to send message:";
      EAlert (detail_or err "Failed to send message. Please try again.")]
     ++ (if inputRef_current then [EFocusInput] else [])).
Proof.
  unfold handleSendMessage_exchange.
  unfold setMessages, setSending, setCurrentSessionId, setSessions, focusInput.
  unfold_ui. by destruct inputRef_current.
Qed.

(** A fulfilled send without a session id whose refresh is rejected. *)
Lemma handleSendMessage_exchange_refresh_rejected sid message response err st :
  truthy sid = false →
  run (handleSendMessage_exchange projectId inputRef_current sid message
         (Fulfilled response) (Rejected err)) st
  = (Normal tt,
     {| project := project st; sessions := sessions st;
        currentSessionId := data_session_id response;
        messages := slice_0_m1 (messages st);
        inputValue := inputValue st; loading := loading st;
        sending := false; showSidebar := showSidebar st |},
     [ERequest (Api.chatAPI_sendMessage projectId message sid);
      ENavigate ("/project/" +:+ to_string projectId +:+ "/chat/"
                 +:+ to_string (data_session_id response)) true;
      ERequest (Api.chatAPI_listSessions projectId);
      EConsoleError "Failed to send message:";
      EAlert (detail_or err "Failed to send message. Please try again.")]
     ++ (if inputRef_current then [EFocusInput] else [])).
Proof.
  intros Hsid. unfold handleSendMessage_exchange.
  unfold setMessages, setSending, setCurrentSessionId, setSessions, focusInput.
  unfold_ui. rewrite Hsid. by destruct inputRef_current.
Qed.

(** X3. Whatever the outcomes of its requests, a submit completes normally
    and, when no send was in flight before, leaves none marked in flight:
    the form is usable again. It never touches [project], [loading] or
    [showSidebar], and it issues no request, the chat send alone, or the
    chat send followed by the session-list refresh; the refresh only after
    a fulfilled send made without a session id. *)
Theorem handleSendMessage_settles now sent listed st :
  sending st = false →
  result (submit now sent listed st) = Normal tt
  ∧ sending (final_state (submit now sent listed st)) = false
  ∧ project (final_state (submit now sent listed st)) = project st
  ∧ loading (final_state (submit now sent listed st)) = loading st
  ∧ showSidebar (final_state (submit now sent listed st)) = showSidebar st
  ∧ (requests (trace (submit now sent listed st)) = []
     ∨ requests (trace (submit now sent listed st))
       = [Api.chatAPI_sendMessage projectId (trim (inputValue st))
            (currentSessionId st)]
     ∨ (requests (trace (submit now sent listed st))
        = [Api.chatAPI_sendMessage projectId (trim (inputValue st))
             (currentSessionId st);
           Api.chatAPI_listSessions projectId]
        ∧ truthy (currentSessionId st) = false
        ∧ ∃ response, sent = Fulfilled response)).
Proof.
  intros Hidle.
  destruct (decide (trim (inputValue st) = "")) as [Hempty | Hne].
  { rewrite handleSendMessage_blocked by (by left).
    repeat split; try done. by left. }
  rewrite handleSendMessage_accepted by done.
  destruct sent as [response | err].
  - destruct (truthy (currentSessionId st)) eqn:Hsid.
    + rewrite handleSendMessage_exchange_existing by done.
      repeat split; try done. right; left. by destruct inputRef_current.
    + destruct listed as [sessionsRes | err].
      * rewrite handleSendMessage_exchange_new by done.
        repeat split; try done. right; right.
        split; [by destruct inputRef_current|]. eauto.
      * rewrite handleSendMessage_exchange_refresh_rejected by done.
        repeat split; try done. right; right.
        split; [by destruct inputRef_current|]. eauto.
  - rewrite handleSendMessage_exchange_rejected.
    repeat split; try done. right; left. by destruct inputRef_current.
Qed.

(** X4. A rejected chat send, with or without a session id, puts the page
    back as it was before the submit, except that the input stays cleared:
    the typed text is not restored. The user is alerted with the server's
    [detail] when it has a truthy one and with a fixed text otherwise. *)
Theorem handleSendMessage_rejected_restores now err listed st :
  trim (inputValue st) ≠ "" → sending st = false →
  final_state (submit now (Rejected err) listed st)
  = {| project := project st; sessions := sessions st;
       currentSessionId := currentSessionId st; messages := messages st;
       inputValue := ""; loading := loading st;
       sending := false; showSidebar := showSidebar st |}
  ∧ trace (submit now (Rejected err) listed st)
    = [EPreventDefault;
       ERequest (Api.chatAPI_sendMessage projectId (trim (inputValue st))
                   (currentSessionId st));
       EConsoleError "Failed to send message:";
       EAlert (detail_or err "Failed to send message. Please try again.")]
      ++ (if inputRef_current then [EFocusInput] else [])
  ∧ (∀ d, response err ≫= detail = Some d → truthy (Some d) = true →
       detail_or err "Failed to send message. Please try again." = Some d)
  ∧ (truthy (response err ≫= detail) = false →
       detail_or err "Failed to send message. Please try again."
       = Some (JStr "Failed to send message. Please try again.")).
Proof.
  intros Hne Hidle. rewrite handleSendMessage_accepted by done.
  rewrite handleSendMessage_exchange_rejected.
  unfold final_state, trace, sending_state. simpl.
  rewrite slice_0_m1_snoc.
  split; [done|]. split; [done|]. unfold detail_or. split.
  - intros d Hd Htruthy. rewrite Hd.
    change (truthy (Some d) = true) in Htruthy. by rewrite Htruthy.
  - by intros ->.
Qed.

(** X5. The send button is disabled exactly when a submit would send
    nothing: [disabled] holds if and only if the handler issues no request,
    and when it does not hold the first request is the chat send with the
    trimmed input and the current session id. *)
Theorem send_disabled_consistent now sent listed st :
  (send_disabled st = true
   ↔ requests (trace (submit now sent listed st)) = [])
  ∧ (send_disabled st = false →
     head (requests (trace (submit now sent listed st)))
     = Some (Api.chatAPI_sendMessage projectId (trim (inputValue st))
               (currentSessionId st))).
Proof.
  assert (send_disabled st = false →
          trim (inputValue st) ≠ "" ∧ sending st = false) as Henabled.
  { unfold send_disabled. intros [Htrim Hidle]%orb_false_elim.
    by apply negb_false_iff, truthy_str_true in Htrim. }
  assert (send_disabled st = false →
          ∃ t, requests (trace (submit now sent listed st))
               = Api.chatAPI_sendMessage projectId (trim (inputValue st))
                   (currentSessionId st) :: t) as Hsends.
  { intros [Hne Hidle]%Henabled.
    rewrite handleSendMessage_accepted by done.
    destruct (handleSendMessage_exchange_sends projectId inputRef_current
                (currentSessionId st) (trim (inputValue st)) sent listed
                (sending_state now st)) as (r & st' & t & ->).
    by eexists. }
  split; [split|].
  - intros Hdisabled. rewrite handleSendMessage_blocked; [done|].
    unfold send_disabled in Hdisabled.
    apply orb_true_iff in Hdisabled as [Htrim | Hsending]; [left | by right].
    by apply negb_true_iff, truthy_str_false in Htrim.
  - intros Hnone. destruct (send_disabled st) eqn:Hdisabled; [done|].
    destruct (Hsends eq_refl) as [t Ht]. by rewrite Ht in Hnone.
  - intros Hdisabled. destruct (Hsends Hdisabled) as [t ->]. done.
Qed.

Lemma handleNewChat_run st :
  run (handleNewChat projectId inputRef_current) st
  = (Normal tt,
     {| project := project st; sessions := sessions st;
        currentSessionId := Some JNull; messages := [];
        inputValue := inputValue st; loading := loading st;
        sending := sending st; showSidebar := showSidebar st |},
     ENavigate ("/project/" +:+ to_string projectId +:+ "/chat") true
     :: (if inputRef_current then [EFocusInput] else [])).
Proof.
  unfold handleNewChat, setCurrentSessionId, setMessages, focusInput.
  unfold_ui. by destruct inputRef_current.
Qed.

Lemma handleSelectSession_switch sid fetched st :
  sid ≠ currentSessionId st →
  run (handleSelectSession projectId sid fetched) st
  = (Normal tt,
     {| project := project st; sessions := sessions st;
        currentSessionId := sid;
        messages := match fetched with
                    | Fulfilled response => default [] (data_messages response)
                    | Rejected _ => []
                    end;
        inputValue := inputValue st; loading := loading st;
        sending := sending st; showSidebar := showSidebar st |},
     [ENavigate ("/project/" +:+ to_string projectId +:+ "/chat/"
                 +:+ to_string sid) false;
      ERequest (Api.chatAPI_getSession projectId sid)]
     ++ match fetched with
        | Fulfilled _ => []
        | Rejected _ => [EConsoleError "Failed to fetch session:"]
        end).
Proof.
  intros Hother. unfold handleSelectSession, fetchSession, strict_eq.
  unfold setCurrentSessionId, setMessages. unfold_ui.
  rewrite bool_decide_eq_false_2 by done. by destruct fetched.
Qed.

(** X6. Deleting a session asks for confirmation first. Declined, or with
    the delete request rejected, the page state is unchanged. After a
    successful delete the session list has lost the sessions of that id, and
    only them; if the deleted session was the current one the page turns
    into a new chat (no current session, no messages, route
    [/project/<id>/chat]), otherwise the current session and its messages
    stay. *)
Theorem handleDeleteSession_outcomes sid confirmed deleted st :
  (∃ t, trace (run (handleDeleteSession projectId inputRef_current sid
                      confirmed deleted) st)
        = [EStopPropagation; EConfirm "Delete this conversation?" confirmed]
          ++ t
        ∧ requests t
          = if confirmed then [Api.chatAPI_deleteSession projectId sid]
            else [])
  ∧ (confirmed = false ∨ (∃ err, deleted = Rejected err) →
     final_state (run (handleDeleteSession projectId inputRef_current sid
                         confirmed deleted) st) = st)
  ∧ (confirmed = true → (∃ u, deleted = Fulfilled u) →
     (∀ s, s ∈ sessions (final_state
                    (run (handleDeleteSession projectId inputRef_current sid
                            confirmed deleted) st))
           ↔ s ∈ sessions st ∧ s !! "_id" ≠ sid)
     ∧ (sid = currentSessionId st →
        currentSessionId (final_state
                    (run (handleDeleteSession projectId inputRef_current sid
                            confirmed deleted) st)) = Some JNull
        ∧ messages (final_state
                    (run (handleDeleteSession projectId inputRef_current sid
                            confirmed deleted) st)) = []
        ∧ ENavigate ("/project/" +:+ to_string projectId +:+ "/chat") true
          ∈ trace (run (handleDeleteSession projectId inputRef_current sid
                          confirmed deleted) st))
     ∧ (sid ≠ currentSessionId st →
        currentSessionId (final_state
                    (run (handleDeleteSession projectId inputRef_current sid
                            confirmed deleted) st)) = currentSessionId st
        ∧ messages (final_state
                    (run (handleDeleteSession projectId inputRef_current sid
                            confirmed deleted) st)) = messages st)).
Proof.
  unfold handleDeleteSession, handleNewChat, strict_eq.
  unfold setSessions, setCurrentSessionId, setMessages, focusInput.
  unfold_ui.
  split; [|split].
  - destruct confirmed; simpl; [|by exists []].
    destruct deleted; simpl; [|by eexists].
    destruct (bool_decide (sid = currentSessionId st)), inputRef_current;
      simpl; by eexists.
  - intros [-> | [err ->]]; [done|]. by destruct confirmed.
  - intros -> [u ->]. simpl.
    destruct (decide (sid = currentSessionId st)) as [Hcur | Hother].
    + rewrite bool_decide_eq_true_2 by done.
      destruct inputRef_current; unfold final_state; simpl.
      all: split; [intros s; rewrite list_elem_of_filter; tauto|].
      all: split; [|done].
      all: intros _; repeat split; try done.
      all: apply list_elem_of_further, list_elem_of_further,
             list_elem_of_further, list_elem_of_here.
    + rewrite bool_decide_eq_false_2 by done. unfold final_state. simpl.
      split; [intros s; rewrite list_elem_of_filter; tauto|].
      split; [done|]. by intros _.
Qed.

(** X7. Selecting a session always completes normally and leaves that
    session current, whether or not its messages could be fetched (a failed
    fetch shows an empty conversation), with at most one request. The route
    effect that fires for the new route parameter then does nothing: the
    session is not fetched a second time. *)
Theorem handleSelectSession_then_effect sid fetched fetched' st :
  result (run (handleSelectSession projectId sid fetched) st) = Normal tt
  ∧ currentSessionId (final_state
                        (run (handleSelectSession projectId sid fetched) st))
    = sid
  ∧ length (requests (trace
                        (run (handleSelectSession projectId sid fetched) st)))
    ≤ 1
  ∧ (sid ≠ currentSessionId st → ∀ err, fetched = Rejected err →
     messages (final_state
                 (run (handleSelectSession projectId sid fetched) st)) = [])
  ∧ run (handleSelectSession projectId sid fetched;;
         sessionIdEffect projectId sid fetched') st
    = run (handleSelectSession projectId sid fetched) st.
Proof.
  assert (∀ st', currentSessionId st' = sid →
            run (sessionIdEffect projectId sid fetched') st'
            = (Normal tt, st', [])) as Heffect.
  { intros st' Hcur. unfold sessionIdEffect, strict_eq. unfold_ui.
    rewrite Hcur, bool_decide_eq_true_2 by done.
    by rewrite andb_false_r. }
  destruct (decide (sid = currentSessionId st)) as [Hcur | Hother].
  - assert (run (handleSelectSession projectId sid fetched) st
            = (Normal tt, st, [])) as Hsame.
    { unfold handleSelectSession, strict_eq. unfold_ui.
      by rewrite bool_decide_eq_true_2. }
    rewrite (run_bind_normal _ _ _ _ _ _ Hsame), Hsame.
    rewrite Heffect by done.
    unfold result, final_state, trace. simpl. repeat split; try done. lia.
  - pose proof (handleSelectSession_switch sid fetched st Hother) as Hswitch.
    rewrite (run_bind_normal _ _ _ _ _ _ Hswitch), Hswitch.
    rewrite Heffect by done.
    unfold result, final_state, trace. simpl.
    split; [done|]. split; [done|].
    split; [by destruct fetched; simpl; lia|].
    split; [by intros _ err ->|].
    by rewrite app_nil_r.
Qed.

Lemma fetchInitialData_loaded sessionId p ss fetched st :
  run (fetchInitialData projectId sessionId (Fulfilled p) (Fulfilled ss)
         fetched) st
  = (Normal tt,
     {| project := Some p; sessions := ss;
        currentSessionId := currentSessionId st;
        messages := if truthy sessionId
                    then match fetched with
                         | Fulfilled response =>
                             default [] (data_messages response)
                         | Rejected _ => []
                         end
                    else messages st;
        inputValue := inputValue st; loading := false;
        sending := sending st; showSidebar := showSidebar st |},
     [ERequest (Api.projectAPI_get projectId);
      ERequest (Api.chatAPI_listSessions projectId)]
     ++ (if truthy sessionId
         then ERequest (Api.chatAPI_getSession projectId sessionId)
              :: match fetched with
                 | Fulfilled _ => []
                 | Rejected _ => [EConsoleError "Failed to fetch session:"]
                 end
         else [])).
Proof.
  unfold fetchInitialData, fetchSession.
  unfold setProject, setSessions, setMessages, setLoading. unfold_ui.
  simpl. by destruct (truthy sessionId), fetched.
Qed.

Lemma fetchInitialData_failed sessionId projectRes sessionsRes fetched st :
  (∃ err, projectRes = Rejected err) ∨ (∃ err, sessionsRes = Rejected err) →
  run (fetchInitialData projectId sessionId projectRes sessionsRes fetched) st
  = (Normal tt,
     {| project := project st; sessions := sessions st;
        currentSessionId := currentSessionId st; messages := messages st;
        inputValue := inputValue st; loading := false;
        sending := sending st; showSidebar := showSidebar st |},
     [ERequest (Api.projectAPI_get projectId);
      ERequest (Api.chatAPI_listSessions projectId);
      EConsoleError "Failed to fetch data:";
      ENavigate "/dashboard" false]).
Proof.
  unfold fetchInitialData, setLoading. unfold_ui.
  intros [[err ->] | [err ->]]; [done|]. by destruct projectRes.
Qed.

(** X8. Loading the chat page always completes normally and ends with
    [loading] cleared, and both the project and the session-list request
    are always issued. When both are fulfilled, the project and the session
    list are stored and the session of the route, if the route names one,
    is fetched (exactly one more request; none otherwise, and then the
    messages are untouched). When either is rejected nothing is stored, no
    session is fetched and the page navigates to [/dashboard]. On the
    freshly mounted component the route effect does nothing, so the session
    of the route is fetched only once. *)
Theorem fetchInitialData_outcomes sessionId projectRes sessionsRes fetched st :
  result (run (fetchInitialData projectId sessionId projectRes sessionsRes
                 fetched) st) = Normal tt
  ∧ loading (final_state
               (run (fetchInitialData projectId sessionId projectRes
                       sessionsRes fetched) st)) = false
  ∧ take 2 (requests
              (trace (run (fetchInitialData projectId sessionId projectRes
                             sessionsRes fetched) st)))
    = [Api.projectAPI_get projectId; Api.chatAPI_listSessions projectId]
  ∧ (∀ p ss, projectRes = Fulfilled p → sessionsRes = Fulfilled ss →
       project (final_state
                  (run (fetchInitialData projectId sessionId projectRes
                          sessionsRes fetched) st)) = Some p
       ∧ sessions (final_state
                     (run (fetchInitialData projectId sessionId projectRes
                             sessionsRes fetched) st)) = ss
       ∧ requests
           (trace (run (fetchInitialData projectId sessionId projectRes
                          sessionsRes fetched) st))
         = [Api.projectAPI_get projectId; Api.chatAPI_listSessions projectId]
           ++ (if truthy sessionId
               then [Api.chatAPI_getSession projectId sessionId] else [])
       ∧ (truthy sessionId = false →
          messages (final_state
                      (run (fetchInitialData projectId sessionId projectRes
                              sessionsRes fetched) st)) = messages st))
  ∧ ((∃ err, projectRes = Rejected err) ∨ (∃ err, sessionsRes = Rejected err) →
     requests
       (trace (run (fetchInitialData projectId sessionId projectRes
                      sessionsRes fetched) st))
     = [Api.projectAPI_get projectId; Api.chatAPI_listSessions projectId]
     ∧ ENavigate "/dashboard" false
       ∈ trace (run (fetchInitialData projectId sessionId projectRes
                       sessionsRes fetched) st)
     ∧ project (final_state
                  (run (fetchInitialData projectId sessionId projectRes
                          sessionsRes fetched) st)) = project st
     ∧ sessions (final_state
                   (run (fetchInitialData projectId sessionId projectRes
                           sessionsRes fetched) st)) = sessions st
     ∧ messages (final_state
                   (run (fetchInitialData projectId sessionId projectRes
                           sessionsRes fetched) st)) = messages st)
  ∧ run (sessionIdEffect projectId sessionId fetched) (initial_state sessionId)
    = (Normal tt, initial_state sessionId, []).
Proof.
  assert ((∃ p ss, projectRes = Fulfilled p ∧ sessionsRes = Fulfilled ss)
          ∨ ((∃ err, projectRes = Rejected err)
             ∨ (∃ err, sessionsRes = Rejected err))) as [Hok | Hfail].
  { destruct projectRes, sessionsRes; eauto 6. }
  - destruct Hok as (p & ss & -> & ->). rewrite fetchInitialData_loaded.
    unfold result, final_state, trace. simpl.
    split; [done|]. split; [done|].
    split; [by destruct (truthy sessionId), fetched|].
    split; [|split].
    + intros ?? [= <-] [= <-].
      split; [done|]. split; [done|].
      split; [by destruct (truthy sessionId), fetched|].
      by intros ->.
    + by intros [[err [=]] | [err [=]]].
    + unfold sessionIdEffect, initial_state, strict_eq. unfold_ui. simpl.
      destruct (truthy sessionId); [|done].
      by rewrite bool_decide_eq_true_2.
  - rewrite fetchInitialData_failed by done.
    unfold result, final_state, trace. simpl.
    split; [done|]. split; [done|]. split; [done|].
    split; [|split].
    + intros p ss -> ->. by destruct Hfail as [[err [=]] | [err [=]]].
    + intros _. repeat split; try done.
      do 3 apply list_elem_of_further. apply list_elem_of_here.
    + unfold sessionIdEffect, initial_state, strict_eq. unfold_ui. simpl.
      destruct (truthy sessionId); [|done].
      by rewrite bool_decide_eq_true_2.
Qed.

(** A submit after the input was set to [text], from an idle page. *)
Lemma typed_submit_accepted text now sent listed st :
  trim text ≠ "" → sending st = false →
  ∃ r st' t,
    run (setInputValue text;;
         handleSendMessage projectId inputRef_current now sent listed) st
    = (r, st',
       EPreventDefault
       :: ERequest (Api.chatAPI_sendMessage projectId (trim text)
                      (currentSessionId st)) :: t)
    ∧ requests t
      = if truthy (currentSessionId st) then []
        else match sent with
             | Fulfilled _ => [Api.chatAPI_listSessions projectId]
             | Rejected _ => []
             end.
Proof.
  intros Hne Hidle.
  assert (run (setInputValue text) st
          = (Normal tt,
             {| project := project st; sessions := sessions st;
                currentSessionId := currentSessionId st;
                messages := messages st; inputValue := text;
                loading := loading st; sending := sending st;
                showSidebar := showSidebar st |}, [])) as Htyped by done.
  rewrite (run_bind_normal _ _ _ _ _ _ Htyped).
  rewrite handleSendMessage_accepted by done. simpl.
  destruct sent as [response | err].
  - destruct (truthy (currentSessionId st)) eqn:Hsid.
    + rewrite handleSendMessage_exchange_existing by done.
      unfold result, final_state, trace. simpl.
      do 3 eexists. split; [done|]. by destruct inputRef_current.
    + destruct listed as [sessionsRes | err].
      * rewrite handleSendMessage_exchange_new by done.
        unfold result, final_state, trace. simpl.
        do 3 eexists. split; [done|]. by destruct inputRef_current.
      * rewrite handleSendMessage_exchange_refresh_rejected by done.
        unfold result, final_state, trace. simpl.
        do 3 eexists. split; [done|]. by destruct inputRef_current.
  - rewrite handleSendMessage_exchange_rejected.
    unfold result, final_state, trace. simpl.
    do 3 eexists. split; [done|].
    by destruct inputRef_current, (truthy (currentSessionId st)).
Qed.

(** The route effect for the session that is already current does
    nothing. *)
Lemma sessionIdEffect_current sid fetched st :
  currentSessionId st = sid →
  run (sessionIdEffect projectId sid fetched) st = (Normal tt, st, []).
Proof.
  intros Hcur. unfold sessionIdEffect, strict_eq. unfold_ui.
  rewrite Hcur, bool_decide_eq_true_2 by done.
  by rewrite andb_false_r.
Qed.

(** X9. A conversation keeps its session. After a first send without a
    session id has succeeded (refresh included) and returned a truthy
    session id, the route effect for the new route fetches nothing, and a
    second message typed and sent goes out with that session id, without
    another refresh of the session list: the only requests are the first
    send, the refresh and the second send. *)
Theorem second_send_reuses_session
    now now' text response sessionsRes fetched sent' listed' st :
  trim (inputValue st) ≠ "" → sending st = false →
  truthy (currentSessionId st) = false →
  truthy (data_session_id response) = true →
  trim text ≠ "" →
  requests
    (trace (run (handleSendMessage projectId inputRef_current now
                   (Fulfilled response) (Fulfilled sessionsRes);;
                 sessionIdEffect projectId (data_session_id response) fetched;;
                 setInputValue text;;
                 handleSendMessage projectId inputRef_current now'
                   sent' listed') st))
  = [Api.chatAPI_sendMessage projectId (trim (inputValue st))
       (currentSessionId st);
     Api.chatAPI_listSessions projectId;
     Api.chatAPI_sendMessage projectId (trim text) (data_session_id response)].
Proof.
  intros Hne Hidle Hnew Hadopted Htext.
  assert (submit now (Fulfilled response) (Fulfilled sessionsRes) st
          = (Normal tt,
             {| project := project st; sessions := sessionsRes;
                currentSessionId := data_session_id response;
                messages := (messages st
                             ++ [userMessage (trim (inputValue st)) now])
                            ++ [data_message response];
                inputValue := ""; loading := loading st;
                sending := false; showSidebar := showSidebar st |},
             EPreventDefault
             :: [ERequest (Api.chatAPI_sendMessage projectId
                             (trim (inputValue st)) (currentSessionId st));
                 ENavigate ("/project/" +:+ to_string projectId +:+ "/chat/"
                            +:+ to_string (data_session_id response)) true;
                 ERequest (Api.chatAPI_listSessions projectId)]
                ++ (if inputRef_current then [EFocusInput] else [])))
    as Hfirst.
  { rewrite handleSendMessage_accepted by done.
    by rewrite handleSendMessage_exchange_new by done. }
  rewrite (run_bind_normal _ _ _ _ _ _ Hfirst).
  match goal with
  | |- context [run (sessionIdEffect _ _ _;; ?h) ?s] =>
      rewrite (run_bind_normal _ _ _ _ _ _
                 (sessionIdEffect_current (data_session_id response) fetched
                    s eq_refl))
  end.
  match goal with
  | |- context [run (setInputValue text;; ?h) ?s] =>
      destruct (typed_submit_accepted text now' sent' listed' s Htext eq_refl)
        as (r & st' & t & -> & Hrest)
  end.
  unfold trace. simpl in *. rewrite Hadopted in Hrest.
  rewrite requests_app. simpl.
  destruct inputRef_current; simpl; by rewrite Hrest.
Qed.

(** X10. New Chat always starts a fresh conversation: whatever session was
    current, the page has no messages afterwards and the next message typed
    and sent goes out with [session_id: null]. *)
Theorem new_chat_then_send text now sent listed st :
  trim text ≠ "" → sending st = false →
  messages (final_state (run (handleNewChat projectId inputRef_current) st))
  = []
  ∧ head (requests
            (trace (run (handleNewChat projectId inputRef_current;;
                         setInputValue text;;
                         handleSendMessage projectId inputRef_current now
                           sent listed) st)))
    = Some (Api.chatAPI_sendMessage projectId (trim text) (Some JNull))
  ∧ data (Api.chatAPI_sendMessage projectId (trim text) (Some JNull))
    = JsonData {[ "message" := JStr (trim text); "session_id" := JNull ]}.
Proof.
  intros Htext Hidle. rewrite handleNewChat_run.
  split; [done|]. split; [|done].
  rewrite (run_bind_normal _ _ _ _ _ _ (handleNewChat_run st)).
  match goal with
  | |- context [run (setInputValue text;; ?h) ?s] =>
      destruct (typed_submit_accepted text now sent listed s Htext Hidle)
        as (r & st' & t & -> & _)
  end.
  unfold trace. simpl. rewrite requests_app.
  by destruct inputRef_current.
Qed.
End ChatFurther.

Lemma handleSendMessage_settles_witness :
  result (run (Chat.handleSendMessage Examples.pid true Examples.clock
                 (Fulfilled Examples.reply)
                 (Rejected Examples.network_failure)) Examples.chat_fresh)
  = Normal tt
  ∧ Chat.sending
      (final_state
         (run (Chat.handleSendMessage Examples.pid true Examples.clock
                 (Fulfilled Examples.reply)
                 (Rejected Examples.network_failure)) Examples.chat_fresh))
    = false.
Proof.
  destruct (handleSendMessage_settles Examples.pid true Examples.clock
              (Fulfilled Examples.reply) (Rejected Examples.network_failure)
              Examples.chat_fresh) as (Hnormal & Hidle & _).
  - reflexivity.
  - split; [exact Hnormal | exact Hidle].
Defined.

Lemma handleSendMessage_rejected_restores_witness :
  Chat.messages
    (final_state
       (run (Chat.handleSendMessage Examples.pid true Examples.clock
               (Rejected Examples.upstream_failure) (Fulfilled []))
          Examples.chat_in_session))
  = [Examples.greeting]
  ∧ Chat.inputValue
      (final_state
         (run (Chat.handleSendMessage Examples.pid true Examples.clock
                 (Rejected Examples.upstream_failure) (Fulfilled []))
            Examples.chat_in_session))
    = "".
Proof.
  destruct (handleSendMessage_rejected_restores Examples.pid true
              Examples.clock Examples.upstream_failure (Fulfilled [])
              Examples.chat_in_session) as (Hstate & _).
  - vm_compute. discriminate.
  - reflexivity.
  - rewrite Hstate. split; reflexivity.
Defined.

Lemma second_send_reuses_session_witness :
  requests
    (trace (run (Chat.handleSendMessage Examples.pid true Examples.clock
                   (Fulfilled Examples.reply) (Fulfilled []);;
                 Chat.sessionIdEffect Examples.pid (Some (JStr "s1"))
                   (Fulfilled Examples.session_s1);;
                 Chat.setInputValue "Merci";;
                 Chat.handleSendMessage Examples.pid true Examples.clock
                   (Fulfilled Examples.reply) (Fulfilled []))
              Examples.chat_fresh))
  = [Api.chatAPI_sendMessage Examples.pid "Hello" (Some JNull);
     Api.chatAPI_listSessions Examples.pid;
     Api.chatAPI_sendMessage Examples.pid "Merci" (Some (JStr "s1"))].
Proof.
  apply (second_send_reuses_session Examples.pid true Examples.clock
           Examples.clock "Merci" Examples.reply [] 
           (Fulfilled Examples.session_s1) (Fulfilled Examples.reply)
           (Fulfilled []) Examples.chat_fresh).
  - vm_compute. discriminate.
  - reflexivity.
  - reflexivity.
  - reflexivity.
  - vm_compute. discriminate.
Defined.

Lemma new_chat_then_send_witness :
  head (requests
          (trace (run (Chat.handleNewChat Examples.pid true;;
                       Chat.setInputValue " Salut ";;
                       Chat.handleSendMessage Examples.pid true Examples.clock
                         (Fulfilled Examples.reply) (Fulfilled []))
                    Examples.chat_in_session)))
  = Some (Api.chatAPI_sendMessage Examples.pid "Salut" (Some JNull)).
Proof.
  destruct (new_chat_then_send Examples.pid true " Salut " Examples.clock
              (Fulfilled Examples.reply) (Fulfilled [])
              Examples.chat_in_session) as (_ & Hhead & _).
  - vm_compute. discriminate.
  - reflexivity.
  - exact Hhead.
Defined.

(** ** Dashboard page *)

Section DashboardFurther.
Import Dashboard.

Lemma handleCreateProject_run created st :
  run (handleCreateProject created) st
  = match created with
    | Fulfilled response =>
        (Normal tt,
         {| projects := response :: projects st; loading := loading st;
            showModal := false; newProject := empty_form;
            creating := false; error := Some (JStr "") |},
         [EPreventDefault;
          ERequest (Api.projectAPI_create (create_payload (newProject st)))])
    | Rejected err =>
        (Normal tt,
         {| projects := projects st; loading := loading st;
            showModal := showModal st; newProject := newProject st;
            creating := false;
            error := detail_or err "Failed to create project" |},
         [EPreventDefault;
          ERequest (Api.projectAPI_create (create_payload (newProject st)))])
    end.
Proof. by destruct created. Qed.

(** X11. Creating a project sends exactly one request, whose body has the
    three fields [name], [description] and [system_prompt]: the name as
    typed, the description as typed or [null] when left empty, and a
    system prompt that is never empty, the default one standing in for an
    empty field. *)
Theorem handleCreateProject_payload created st :
  requests (trace (run (handleCreateProject created) st))
  = [Api.projectAPI_create (create_payload (newProject st))]
  ∧ data (Api.projectAPI_create (create_payload (newProject st)))
    = JsonData (create_payload (newProject st))
  ∧ dom (create_payload (newProject st))
    = {[ "name"; "description"; "system_prompt" ]}
  ∧ create_payload (newProject st) !! "name"
    = Some (JStr (form_name (newProject st)))
  ∧ create_payload (newProject st) !! "description"
    = Some (if decide (form_description (newProject st) = "")
            then JNull else JStr (form_description (newProject st)))
  ∧ ∃ prompt,
      create_payload (newProject st) !! "system_prompt" = Some (JStr prompt)
      ∧ prompt ≠ ""
      ∧ prompt = if decide (form_system_prompt (newProject st) = "")
                 then "You are a helpful AI assistant."
                 else form_system_prompt (newProject st).
Proof.
  rewrite handleCreateProject_run.
  split; [by destruct created|]. split; [done|].
  unfold create_payload, truthy_str.
  split; [|split; [|split]].
  - rewrite !dom_insert_L, dom_singleton_L. set_solver.
  - by rewrite lookup_insert_eq.
  - rewrite lookup_insert_ne, lookup_insert_eq by done.
    by destruct (decide (form_description (newProject st) = ""));
      [rewrite bool_decide_eq_true_2 | rewrite bool_decide_eq_false_2].
  - eexists. rewrite !lookup_insert_ne, lookup_singleton_eq by done.
    split; [done|].
    destruct (decide (form_system_prompt (newProject st) = ""));
      [rewrite bool_decide_eq_true_2 | rewrite bool_decide_eq_false_2];
      done.
Qed.

(** X12. Creating a project always completes normally and clears
    [creating]. On success the returned project is put in front of the list,
    the dialog is closed, the form is emptied and the error is cleared. On
    failure the list, the dialog and the form stay as they are, so the user
    can retry, and the error shows the server's [detail] or, without a
    truthy one, "Failed to create project". *)
Theorem handleCreateProject_outcomes created st :
  result (run (handleCreateProject created) st) = Normal tt
  ∧ creating (final_state (run (handleCreateProject created) st)) = false
  ∧ (∀ response, created = Fulfilled response →
       projects (final_state (run (handleCreateProject created) st))
       = response :: projects st
       ∧ showModal (final_state (run (handleCreateProject created) st)) = false
       ∧ newProject (final_state (run (handleCreateProject created) st))
         = empty_form
       ∧ error (final_state (run (handleCreateProject created) st))
         = Some (JStr ""))
  ∧ (∀ err, created = Rejected err →
       projects (final_state (run (handleCreateProject created) st))
       = projects st
       ∧ showModal (final_state (run (handleCreateProject created) st))
         = showModal st
       ∧ newProject (final_state (run (handleCreateProject created) st))
         = newProject st
       ∧ truthy (error (final_state (run (handleCreateProject created) st)))
         = true
       ∧ (truthy (response err ≫= detail) = false →
          error (final_state (run (handleCreateProject created) st))
          = Some (JStr "Failed to create project"))).
Proof.
  rewrite handleCreateProject_run.
  destruct created as [response | err]; unfold result, final_state; simpl.
  - split; [done|]. split; [done|]. split; [|by intros ? [=]].
    by intros ? [= <-].
  - split; [done|]. split; [done|]. split; [by intros ? [=]|].
    intros ? [= <-]. split; [done|]. split; [done|]. split; [done|].
    unfold detail_or. split.
    + by destruct (truthy (response err ≫= detail)) eqn:Hdetail.
    + by intros ->.
Qed.

(** X13. Creating a project and then deleting it gives back the project
    list from before, provided no listed project already has the id of the
    new one. *)
Theorem create_then_delete_project response st :
  Forall (λ p, p !! "_id" ≠ response !! "_id") (projects st) →
  projects
    (final_state
       (run (handleCreateProject (Fulfilled response);;
             handleDeleteProject (response !! "_id") true (Fulfilled tt)) st))
  = projects st.
Proof.
  intros Hfresh.
  rewrite (run_bind_normal _ _ _ _ _ _
             (handleCreateProject_run (Fulfilled response) st)).
  rewrite handleDeleteProject_confirmed.
  unfold final_state. simpl.
  rewrite filter_cons_False by (by intros Hne; apply Hne).
  by apply filter_all.
Qed.
End DashboardFurther.

Lemma create_then_delete_project_witness :
  Dashboard.projects
    (final_state
       (run (Dashboard.handleCreateProject (Fulfilled Examples.project_new);;
             Dashboard.handleDeleteProject (Some (JStr "p3")) true
               (Fulfilled tt)) Examples.dashboard))
  = [Examples.project_bot; Examples.project_faq].
Proof.
  apply (create_then_delete_project Examples.project_new Examples.dashboard).
  apply (bool_decide_unpack _). vm_compute. exact I.
Defined.

(** ** Project page *)

Section ProjectDetailFurther.
Import ProjectDetail.
Variable projectId : option jsval.

Lemma fetchProjectData_loaded d ps filesRes ss st :
  run (fetchProjectData projectId (Fulfilled d) (Fulfilled ps) filesRes
         (Fulfilled ss)) st
  = (Normal tt,
     {| project := Some (project_object d); prompts := ps;
        files := match filesRes with
                 | Fulfilled fs => fs
                 | Rejected _ => []
                 end;
        sessions := ss; loading := false; activeTab := activeTab st;
        editing := editing st; editForm := form_of_project d;
        saving := saving st; showPromptModal := showPromptModal st;
        newPrompt := newPrompt st; creatingPrompt := creatingPrompt st;
        uploading := uploading st |},
     ERequest <$> page_requests projectId).
Proof. by destruct filesRes. Qed.

Lemma fetchProjectData_failed projectRes promptsRes filesRes sessionsRes st :
  (∃ err, projectRes = Rejected err) ∨ (∃ err, promptsRes = Rejected err)
  ∨ (∃ err, sessionsRes = Rejected err) →
  run (fetchProjectData projectId projectRes promptsRes filesRes sessionsRes)
    st
  = (Normal tt,
     {| project := project st; prompts := prompts st; files := files st;
        sessions := sessions st; loading := false;
        activeTab := activeTab st; editing := editing st;
        editForm := editForm st; saving := saving st;
        showPromptModal := showPromptModal st; newPrompt := newPrompt st;
        creatingPrompt := creatingPrompt st; uploading := uploading st |},
     (ERequest <$> page_requests projectId)
     ++ [EConsoleError "Failed to fetch project:";
         ENavigate "/dashboard" false]).
Proof.
  intros [[err ->] | [[err ->] | [err ->]]].
  - done.
  - by destruct projectRes.
  - by destruct projectRes, promptsRes, filesRes.
Qed.

(** X14. Loading the project page always completes normally with [loading]
    cleared, after issuing the same four requests. A rejected file-list
    request does not fail the load: with the other three fulfilled, the
    project, its prompts and its sessions are stored, the edit form is
    filled, the file list is the fetched one or empty when its request was
    rejected, and the page does not navigate away. When one of the other
    three is rejected nothing is stored and the page navigates to
    [/dashboard]. *)
Theorem fetchProjectData_tolerates_files
    projectRes promptsRes filesRes sessionsRes st :
  result (run (fetchProjectData projectId projectRes promptsRes filesRes
                 sessionsRes) st) = Normal tt
  ∧ loading (final_state (run (fetchProjectData projectId projectRes
                                 promptsRes filesRes sessionsRes) st)) = false
  ∧ requests (trace (run (fetchProjectData projectId projectRes promptsRes
                            filesRes sessionsRes) st))
    = page_requests projectId
  ∧ (∀ d ps ss,
       projectRes = Fulfilled d → promptsRes = Fulfilled ps →
       sessionsRes = Fulfilled ss →
       project (final_state (run (fetchProjectData projectId projectRes
                                    promptsRes filesRes sessionsRes) st))
       = Some (project_object d)
       ∧ prompts (final_state (run (fetchProjectData projectId projectRes
                                      promptsRes filesRes sessionsRes) st))
         = ps
       ∧ sessions (final_state (run (fetchProjectData projectId projectRes
                                       promptsRes filesRes sessionsRes) st))
         = ss
       ∧ files (final_state (run (fetchProjectData projectId projectRes
                                    promptsRes filesRes sessionsRes) st))
         = match filesRes with Fulfilled fs => fs | Rejected _ => [] end
       ∧ editForm (final_state (run (fetchProjectData projectId projectRes
                                       promptsRes filesRes sessionsRes) st))
         = form_of_project d
       ∧ ENavigate "/dashboard" false
         ∉ trace (run (fetchProjectData projectId projectRes promptsRes
                         filesRes sessionsRes) st))
  ∧ ((∃ err, projectRes = Rejected err) ∨ (∃ err, promptsRes = Rejected err)
     ∨ (∃ err, sessionsRes = Rejected err) →
     ENavigate "/dashboard" false
     ∈ trace (run (fetchProjectData projectId projectRes promptsRes
                     filesRes sessionsRes) st)
     ∧ final_state (run (fetchProjectData projectId projectRes promptsRes
                           filesRes sessionsRes) st)
       = {| project := project st; prompts := prompts st; files := files st;
            sessions := sessions st; loading := false;
            activeTab := activeTab st; editing := editing st;
            editForm := editForm st; saving := saving st;
            showPromptModal := showPromptModal st; newPrompt := newPrompt st;
            creatingPrompt := creatingPrompt st; uploading := uploading st |}).
Proof.
  assert ((∃ d ps ss, projectRes = Fulfilled d ∧ promptsRes = Fulfilled ps
                      ∧ sessionsRes = Fulfilled ss)
          ∨ ((∃ err, projectRes = Rejected err)
             ∨ (∃ err, promptsRes = Rejected err)
             ∨ (∃ err, sessionsRes = Rejected err))) as [Hok | Hfail].
  { destruct projectRes, promptsRes, sessionsRes; eauto 8. }
  - destruct Hok as (d & ps & ss & -> & -> & ->).
    rewrite fetchProjectData_loaded. unfold result, final_state, trace. simpl.
    split; [done|]. split; [done|]. split; [done|]. split.
    + intros ??? [= <-] [= <-] [= <-]. repeat split; try done.
      intros Hin. repeat (apply elem_of_cons in Hin as [[=] | Hin]).
      by apply elem_of_nil in Hin.
    + by intros [[err [=]] | [[err [=]] | [err [=]]]].
  - rewrite fetchProjectData_failed by done.
    unfold result, final_state, trace. simpl.
    split; [done|]. split; [done|]. split; [done|]. split.
    + intros d ps ss -> -> ->.
      by destruct Hfail as [[err [=]] | [[err [=]] | [err [=]]]].
    + intros _. split; [|done].
      do 5 apply list_elem_of_further. apply list_elem_of_here.
Qed.

Lemma handleUpdateProject_run updated st :
  run (handleUpdateProject projectId updated) st
  = (Normal tt,
     {| project := match updated with
                   | Fulfilled response => Some response
                   | Rejected _ => project st
                   end;
        prompts := prompts st; files := files st; sessions := sessions st;
        loading := loading st; activeTab := activeTab st;
        editing := match updated with
                   | Fulfilled _ => false
                   | Rejected _ => editing st
                   end;
        editForm := editForm st; saving := false;
        showPromptModal := showPromptModal st; newPrompt := newPrompt st;
        creatingPrompt := creatingPrompt st; uploading := uploading st |},
     [EPreventDefault;
      ERequest (Api.projectAPI_update projectId (update_payload (editForm st)))]
     ++ match updated with
        | Fulfilled _ => []
        | Rejected _ => [EConsoleError "Failed to update project:"]
        end).
Proof. by destruct updated. Qed.

(** X15. Saving the project settings sends one PUT for the project of the
    route whose body is the edit form as it stands, the description as a
    string even when empty. The handler always completes normally with
    [saving] cleared. On success the stored project becomes the returned
    one and edit mode is left; on failure the stored project and the edit
    mode stay, and in both cases the form keeps its content. *)
Theorem handleUpdateProject_outcomes updated st :
  result (run (handleUpdateProject projectId updated) st) = Normal tt
  ∧ requests (trace (run (handleUpdateProject projectId updated) st))
    = [Api.projectAPI_update projectId (update_payload (editForm st))]
  ∧ method (Api.projectAPI_update projectId (update_payload (editForm st)))
    = PUT
  ∧ url (Api.projectAPI_update projectId (update_payload (editForm st)))
    = "/projects/" +:+ to_string projectId
  ∧ update_payload (editForm st) !! "description"
    = Some (JStr (form_description (editForm st)))
  ∧ saving (final_state (run (handleUpdateProject projectId updated) st))
    = false
  ∧ editForm (final_state (run (handleUpdateProject projectId updated) st))
    = editForm st
  ∧ (∀ response, updated = Fulfilled response →
       project (final_state (run (handleUpdateProject projectId updated) st))
       = Some response
       ∧ editing (final_state (run (handleUpdateProject projectId updated) st))
         = false)
  ∧ (∀ err, updated = Rejected err →
       project (final_state (run (handleUpdateProject projectId updated) st))
       = project st
       ∧ editing (final_state (run (handleUpdateProject projectId updated) st))
         = editing st).
Proof.
  rewrite handleUpdateProject_run. unfold result, final_state, trace. simpl.
  split; [done|]. split; [by destruct updated|].
  split; [done|]. split; [done|].
  split; [unfold update_payload;
          by rewrite lookup_insert_ne, lookup_insert_eq|].
  split; [done|]. split; [done|].
  split; [by intros ? ->|by intros ? ->].
Qed.

(** X16. Loading a project and saving it without editing sends its name
    and system prompt back unchanged, but the description only when it was
    a string: a project whose description is [null] is saved with the
    empty string as description. *)
Theorem load_then_save d ps filesRes ss updated st :
  requests
    (trace (run (fetchProjectData projectId (Fulfilled d) (Fulfilled ps)
                   filesRes (Fulfilled ss);;
                 handleUpdateProject projectId updated) st))
  = page_requests projectId
    ++ [Api.projectAPI_update projectId (update_payload (form_of_project d))]
  ∧ update_payload (form_of_project d) !! "name"
    = project_object d !! "name"
  ∧ update_payload (form_of_project d) !! "system_prompt"
    = project_object d !! "system_prompt"
  ∧ (∀ text, project_description d = Some text →
       update_payload (form_of_project d) !! "description"
       = project_object d !! "description")
  ∧ (project_description d = None →
     project_object d !! "description" = Some JNull
     ∧ update_payload (form_of_project d) !! "description" = Some (JStr "")).
Proof.
  rewrite (run_bind_normal _ _ _ _ _ _
             (fetchProjectData_loaded d ps filesRes ss st)).
  rewrite handleUpdateProject_run. unfold trace. simpl.
  split; [by destruct updated|].
  unfold update_payload, form_of_project, project_object. simpl.
  split; [by simplify_map_eq|].
  split; [by simplify_map_eq|].
  split.
  - intros text ->. by simplify_map_eq.
  - intros ->. by simplify_map_eq.
Qed.

(** X17. Toggling a prompt twice gives back the prompt list, provided the
    prompts with its id hold a boolean [is_active]: after the first
    toggle the list still has, at the same position, a prompt with the
    same id, and toggling that one restores the list. *)
Theorem toggle_twice_restores prompt i st :
  prompts st !! i = Some prompt →
  (∀ p, p ∈ prompts st → p !! "_id" = prompt !! "_id" →
        ∃ b, p !! "is_active" = Some (JBool b)) →
  ∃ prompt',
    prompts (final_state (run (handleTogglePrompt prompt (Fulfilled tt)) st))
      !! i = Some prompt'
    ∧ prompt' !! "_id" = prompt !! "_id"
    ∧ not_is_active prompt' = default JNull (prompt !! "is_active")
    ∧ prompts
        (final_state
           (run (handleTogglePrompt prompt (Fulfilled tt);;
                 handleTogglePrompt prompt' (Fulfilled tt)) st))
      = prompts st.
Proof.
  intros Hi Hbool.
  destruct (Hbool prompt) as [b Hb];
    [by eapply list_elem_of_lookup_2 | done |].
  exists (<["is_active" := not_is_active prompt]> prompt).
  rewrite (run_bind_normal _ _ _ _ _ _
             (handleTogglePrompt_run prompt (Fulfilled tt) st)).
  rewrite !handleTogglePrompt_run. unfold final_state, strict_eq. simpl.
  split; [|split; [|split]].
  - rewrite list_lookup_fmap, Hi. simpl.
    by rewrite bool_decide_eq_true_2.
  - by rewrite lookup_insert_ne.
  - unfold not_is_active. rewrite lookup_insert_eq, Hb. simpl.
    by rewrite negb_involutive.
  - rewrite lookup_insert_ne by done.
    rewrite <-list_fmap_compose. rewrite <-(list_fmap_id (prompts st)) at 2.
    apply list_fmap_ext. intros j p Hp. simpl.
    destruct (decide (p !! "_id" = prompt !! "_id")) as [Hsame | Hother].
    + rewrite (bool_decide_eq_true_2 (p !! "_id" = prompt !! "_id")) by done.
      rewrite lookup_insert_ne by done.
      rewrite bool_decide_eq_true_2 by done.
      destruct (Hbool p) as [c Hc];
        [by eapply list_elem_of_lookup_2 | done |].
      unfold not_is_active. rewrite lookup_insert_eq, Hc. simpl.
      rewrite insert_insert_eq, negb_involutive. by apply insert_id.
    + by rewrite !(bool_decide_eq_false_2 (p !! "_id" = prompt !! "_id")).
Qed.

Lemma handleDeletePrompt_run promptId confirmed deleted st :
  run (handleDeletePrompt promptId confirmed deleted) st
  = match confirmed, deleted with
    | false, _ => (Normal tt, st, [EConfirm "Delete this prompt?" false])
    | true, Fulfilled _ =>
        (Normal tt,
         {| project := project st;
            prompts := filter (λ p, p !! "_id" ≠ promptId) (prompts st);
            files := files st; sessions := sessions st;
            loading := loading st; activeTab := activeTab st;
            editing := editing st; editForm := editForm st;
            saving := saving st; showPromptModal := showPromptModal st;
            newPrompt := newPrompt st; creatingPrompt := creatingPrompt st;
            uploading := uploading st |},
         [EConfirm "Delete this prompt?" true;
          ERequest (Api.promptAPI_delete promptId)])
    | true, Rejected _ =>
        (Normal tt, st,
         [EConfirm "Delete this prompt?" true;
          ERequest (Api.promptAPI_delete promptId);
          EConsoleError "Failed to delete prompt:"])
    end.
Proof. by destruct confirmed, deleted. Qed.

Lemma handleDeleteFile_run fileId confirmed deleted st :
  run (handleDeleteFile fileId confirmed deleted) st
  = match confirmed, deleted with
    | false, _ => (Normal tt, st, [EConfirm "Delete this file?" false])
    | true, Fulfilled _ =>
        (Normal tt,
         {| project := project st; prompts := prompts st;
            files := filter (λ f, f !! "_id" ≠ fileId) (files st);
            sessions := sessions st;
            loading := loading st; activeTab := activeTab st;
            editing := editing st; editForm := editForm st;
            saving := saving st; showPromptModal := showPromptModal st;
            newPrompt := newPrompt st; creatingPrompt := creatingPrompt st;
            uploading := uploading st |},
         [EConfirm "Delete this file?" true;
          ERequest (Api.fileAPI_delete fileId)])
    | true, Rejected _ =>
        (Normal tt, st,
         [EConfirm "Delete this file?" true;
          ERequest (Api.fileAPI_delete fileId);
          EConsoleError "Failed to delete file:"])
    end.
Proof. by destruct confirmed, deleted. Qed.

(** X18. Deleting a prompt and deleting a file both ask for confirmation
    before anything else and send their single delete request only when it
    was given. Declined, or with the request rejected, the page state is
    unchanged. After a successful delete exactly the entries with the given
    id have left the prompt list (respectively the file list), and the
    other list is untouched. *)
Theorem delete_prompt_and_file_guarded id confirmed deleted st :
  (head (trace (run (handleDeletePrompt id confirmed deleted) st))
   = Some (EConfirm "Delete this prompt?" confirmed)
   ∧ requests (trace (run (handleDeletePrompt id confirmed deleted) st))
     = (if confirmed then [Api.promptAPI_delete id] else [])
   ∧ (confirmed = false ∨ (∃ err, deleted = Rejected err) →
      final_state (run (handleDeletePrompt id confirmed deleted) st) = st)
   ∧ (confirmed = true → (∃ u, deleted = Fulfilled u) →
      (∀ p, p ∈ prompts (final_state
                           (run (handleDeletePrompt id confirmed deleted) st))
            ↔ p ∈ prompts st ∧ p !! "_id" ≠ id)
      ∧ files (final_state (run (handleDeletePrompt id confirmed deleted) st))
        = files st))
  ∧ (head (trace (run (handleDeleteFile id confirmed deleted) st))
     = Some (EConfirm "Delete this file?" confirmed)
     ∧ requests (trace (run (handleDeleteFile id confirmed deleted) st))
       = (if confirmed then [Api.fileAPI_delete id] else [])
     ∧ (confirmed = false ∨ (∃ err, deleted = Rejected err) →
        final_state (run (handleDeleteFile id confirmed deleted) st) = st)
     ∧ (confirmed = true → (∃ u, deleted = Fulfilled u) →
        (∀ f, f ∈ files (final_state
                           (run (handleDeleteFile id confirmed deleted) st))
              ↔ f ∈ files st ∧ f !! "_id" ≠ id)
        ∧ prompts (final_state (run (handleDeleteFile id confirmed deleted) st))
          = prompts st)).
Proof.
  rewrite handleDeletePrompt_run, handleDeleteFile_run.
  split.
  - split; [by destruct confirmed, deleted|].
    split; [by destruct confirmed, deleted|]. split.
    + intros [-> | [err ->]]; [done | by destruct confirmed].
    + intros -> [u ->]. unfold final_state. simpl. split; [|done].
      intros p. rewrite list_elem_of_filter. tauto.
  - split; [by destruct confirmed, deleted|].
    split; [by destruct confirmed, deleted|]. split.
    + intros [-> | [err ->]]; [done | by destruct confirmed].
    + intros -> [u ->]. unfold final_state. simpl. split; [|done].
      intros f. rewrite list_elem_of_filter. tauto.
Qed.

Lemma handleCreatePrompt_run created st :
  run (handleCreatePrompt projectId created) st
  = (Normal tt,
     {| project := project st;
        prompts := match created with
                   | Fulfilled response => response :: prompts st
                   | Rejected _ => prompts st
                   end;
        files := files st; sessions := sessions st;
        loading := loading st; activeTab := activeTab st;
        editing := editing st; editForm := editForm st;
        saving := saving st;
        showPromptModal := match created with
                           | Fulfilled _ => false
                           | Rejected _ => showPromptModal st
                           end;
        newPrompt := match created with
                     | Fulfilled _ => empty_prompt_form
                     | Rejected _ => newPrompt st
                     end;
        creatingPrompt := false; uploading := uploading st |},
     [EPreventDefault;
      ERequest (Api.promptAPI_create projectId (prompt_payload (newPrompt st)))]
     ++ match created with
        | Fulfilled _ => []
        | Rejected _ => [EConsoleError "Failed to create prompt:"]
        end).
Proof. by destruct created. Qed.

(** X19. A prompt that has just been created can be toggled and deleted
    like any other: it sits at the head of the list, so toggling it changes
    no prompt with another id, and, when no listed prompt had its id,
    deleting it gives back the prompt list from before the creation. *)
Theorem create_then_delete_prompt response st :
  Forall (λ p, p !! "_id" ≠ response !! "_id") (prompts st) →
  prompts (final_state (run (handleCreatePrompt projectId (Fulfilled response))
                          st))
  = response :: prompts st
  ∧ prompts
      (final_state
         (run (handleCreatePrompt projectId (Fulfilled response);;
               handleTogglePrompt response (Fulfilled tt)) st))
    = <["is_active" := not_is_active response]> response :: prompts st
  ∧ prompts
      (final_state
         (run (handleCreatePrompt projectId (Fulfilled response);;
               handleDeletePrompt (response !! "_id") true (Fulfilled tt)) st))
    = prompts st.
Proof.
  intros Hfresh.
  rewrite !(run_bind_normal _ _ _ _ _ _
              (handleCreatePrompt_run (Fulfilled response) st)).
  rewrite handleCreatePrompt_run, handleTogglePrompt_run,
    handleDeletePrompt_run.
  unfold final_state, strict_eq. simpl.
  split; [done|]. split.
  - rewrite bool_decide_eq_true_2 by done. f_equal.
    rewrite <-(list_fmap_id (prompts st)) at 2.
    apply list_fmap_ext. intros j p Hp. simpl.
    rewrite bool_decide_eq_false_2; [done|].
    eapply Forall_lookup_1 in Hfresh; [|done]. done.
  - rewrite filter_cons_False by (by intros Hne; apply Hne).
    by apply filter_all.
Qed.
End ProjectDetailFurther.

Lemma toggle_twice_restores_witness :
  ProjectDetail.prompts
    (final_state
       (run (ProjectDetail.handleTogglePrompt Examples.prompt_french
               (Fulfilled tt);;
             ProjectDetail.handleTogglePrompt
               (<["is_active" := JBool false]> Examples.prompt_french)
               (Fulfilled tt)) Examples.project_page))
  = [Examples.prompt_french; Examples.prompt_short].
Proof.
  destruct (toggle_twice_restores Examples.prompt_french 0
              Examples.project_page) as (prompt' & Hat & _ & _ & Hback).
  - reflexivity.
  - intros p Hp Hid.
    apply elem_of_cons in Hp as [-> | Hp]; [by exists true|].
    apply list_elem_of_singleton in Hp as ->. by exists false.
  - injection Hat as <-. exact Hback.
Defined.

Lemma create_then_delete_prompt_witness :
  ProjectDetail.prompts
    (final_state
       (run (ProjectDetail.handleCreatePrompt Examples.pid
               (Fulfilled Examples.prompt_new);;
             ProjectDetail.handleDeletePrompt (Some (JStr "q3")) true
               (Fulfilled tt)) Examples.project_page))
  = [Examples.prompt_french; Examples.prompt_short].
Proof.
  destruct (create_then_delete_prompt Examples.pid Examples.prompt_new
              Examples.project_page) as (_ & _ & Hback).
  - apply (bool_decide_unpack _). vm_compute. exact I.
  - exact Hback.
Defined.

(** ** Register page *)

Section RegisterFurther.
Import Register.

Lemma handleSubmit_valid_run registered st :
  password st = confirmPassword st → 6 ≤ String.length (password st) →
  run (handleSubmit registered) st
  = (Normal tt,
     {| name := name st; email := email st; password := password st;
        confirmPassword := confirmPassword st;
        error := match registered with
                 | Fulfilled _ => Some (JStr "")
                 | Rejected err =>
                     detail_or err "Registration failed. Please try again."
                 end;
        loading := false |},
     [EPreventDefault; ERegister (email st) (password st) (name st)]
     ++ match registered with
        | Fulfilled _ => [ENavigate "/dashboard" false]
        | Rejected _ => []
        end).
Proof.
  intros Heq Hlong.
  unfold handleSubmit, register, setError, setLoading. unfold_ui.
  rewrite bool_decide_eq_true_2 by done. simpl.
  assert ((String.length (password st) <? 6) = false) as ->
    by (apply Nat.ltb_ge; lia).
  by destruct registered.
Qed.

(** X20. Submitting the registration form always completes normally and
    never changes the typed name, email or passwords. It navigates, to
    [/dashboard], exactly when both checks pass and the registration
    succeeds. When the registration is rejected the page stays, [loading]
    is cleared and the error shows the server's [detail] or, without a
    truthy one, "Registration failed. Please try again.". *)
Theorem handleSubmit_navigation registered st :
  result (run (handleSubmit registered) st) = Normal tt
  ∧ name (final_state (run (handleSubmit registered) st)) = name st
  ∧ email (final_state (run (handleSubmit registered) st)) = email st
  ∧ password (final_state (run (handleSubmit registered) st)) = password st
  ∧ confirmPassword (final_state (run (handleSubmit registered) st))
    = confirmPassword st
  ∧ (∀ to replace,
       ENavigate to replace ∈ trace (run (handleSubmit registered) st)
       ↔ to = "/dashboard" ∧ replace = false
         ∧ password st = confirmPassword st
         ∧ 6 ≤ String.length (password st)
         ∧ ∃ u, registered = Fulfilled u)
  ∧ (password st = confirmPassword st → 6 ≤ String.length (password st) →
     ∀ err, registered = Rejected err →
       loading (final_state (run (handleSubmit registered) st)) = false
       ∧ truthy (error (final_state (run (handleSubmit registered) st)))
         = true
       ∧ (truthy (response err ≫= detail) = false →
          error (final_state (run (handleSubmit registered) st))
          = Some (JStr "Registration failed. Please try again."))).
Proof.
  destruct (decide (password st = confirmPassword st)) as [Heq | Hne].
  - destruct (decide (String.length (password st) < 6)) as [Hshort | Hlong].
    + rewrite handleSubmit_short by done.
      unfold result, final_state, trace. simpl.
      split; [done|]. split; [done|]. split; [done|]. split; [done|].
      split; [done|]. split.
      * intros to replace. split.
        -- by intros ?%list_elem_of_singleton.
        -- intros (_ & _ & _ & ? & _). lia.
      * intros _ ?. lia.
    + rewrite handleSubmit_valid_run by (done || lia).
      unfold result, final_state, trace. simpl.
      split; [done|]. split; [done|]. split; [done|]. split; [done|].
      split; [done|]. split.
      * intros to replace. split.
        -- destruct registered as [u | err]; simpl; intros Hin.
           ++ repeat (apply elem_of_cons in Hin as [[=] | Hin]);
                [|by apply elem_of_nil in Hin].
              subst. repeat split; try done; [lia | by exists u].
           ++ repeat (apply elem_of_cons in Hin as [[=] | Hin]).
              by apply elem_of_nil in Hin.
        -- intros (-> & -> & _ & _ & u & ->). simpl.
           do 2 apply list_elem_of_further. apply list_elem_of_here.
      * intros _ _ err ->. split; [done|]. unfold detail_or. split.
        -- by destruct (truthy (response err ≫= detail)) eqn:Hdetail.
        -- by intros ->.
  - rewrite handleSubmit_mismatch by done.
    unfold result, final_state, trace. simpl.
    split; [done|]. split; [done|]. split; [done|]. split; [done|].
    split; [done|]. split; [|done].
    intros to replace. split.
    + by intros ?%list_elem_of_singleton.
    + by intros (_ & _ & ? & _).
Qed.
End RegisterFurther.

(** ** Route guards *)

Section RouteFurther.
Import App.

(** X21. Redirects never loop. From every route of the table, once
    loading has finished, following the redirects ends on a page after at
    most two of them: the login or register page when no user is present,
    and one of the other pages when a user is present. While loading, every
    route ends on the loading indicator after at most one redirect. *)
Theorem redirects_settle (a : auth) (path : string) (e : element) :
  (path, e) ∈ routes a →
  (loading a = false →
   ∃ p, settle 2 a e = Page p
        ∧ (user a = None → p = Login ∨ p = Register)
        ∧ (is_Some (user a) → p ≠ Login ∧ p ≠ Register))
  ∧ (loading a = true → settle 1 a e = LoadingDots).
Proof.
  intros Hroute. destruct a as [u l]. unfold routes in Hroute.
  repeat (apply elem_of_cons in Hroute as [[= -> ->] | Hroute]);
    [..| by apply elem_of_nil in Hroute].
  all: split; simpl; intros ->.
  all: try reflexivity.
  all: destruct u as [u|].
  all: vm_compute.
  all: eexists; split; [reflexivity|].
  all: split; [intros Hnone | intros Hsome].
  all: try discriminate Hnone.
  all: try (by destruct Hsome as [? [=]]).
  all: try (split; discriminate).
  all: try (by left).
  all: try (by right).
Qed.
End RouteFurther.

Lemma redirects_settle_witness :
  App.settle 2 Examples.signed_out_auth (App.Navigate "/dashboard" true)
  = App.Page App.Login.
Proof.
  assert (("/", App.Navigate "/dashboard" true)
          ∈ App.routes Examples.signed_out_auth) as Hroot.
  { unfold App.routes. do 6 apply list_elem_of_further.
    apply list_elem_of_here. }
  destruct (redirects_settle Examples.signed_out_auth "/" _ Hroot)
    as [Hloaded _].
  destruct (Hloaded eq_refl) as (p & Hpage & Hout & _).
  rewrite Hpage. destruct (Hout eq_refl) as [-> | ->]; [reflexivity|].
  vm_compute in Hpage. discriminate Hpage.
Defined.

(** ** Trimmed input *)

Section Trim.
Local Abbreviation chars := String.list_ascii_of_string.
Local Abbreviation white := (λ a, is_white_space a = true).

Lemma chars_app s1 s2 : chars (s1 +:+ s2) = chars s1 ++ chars s2.
Proof. induction s1 as [|a s1 IH]; [done|]. simpl. by rewrite <-IH. Qed.

Lemma chars_inj s1 s2 : chars s1 = chars s2 → s1 = s2.
Proof.
  intros Heq.
  rewrite <-(String.string_of_list_ascii_of_string s1),
    <-(String.string_of_list_ascii_of_string s2).
  by rewrite Heq.
Qed.

Lemma chars_rev_app s acc :
  chars (String.rev_app s acc) = reverse (chars s) ++ chars acc.
Proof.
  revert acc. induction s as [|a s IH]; intros acc; [done|].
  simpl. rewrite IH. simpl. by rewrite reverse_cons, <-app_assoc.
Qed.

Lemma chars_rev s : chars (String.rev s) = reverse (chars s).
Proof. unfold String.rev. by rewrite chars_rev_app, app_nil_r. Qed.

Lemma rev_involutive s : String.rev (String.rev s) = s.
Proof. apply chars_inj. by rewrite !chars_rev, reverse_involutive. Qed.

Lemma rev_app_distr s1 s2 :
  String.rev (s1 +:+ s2) = String.rev s2 +:+ String.rev s1.
Proof.
  apply chars_inj. by rewrite chars_rev, !chars_app, !chars_rev, reverse_app.
Qed.

Lemma app_assoc_string s1 s2 s3 : (s1 +:+ s2) +:+ s3 = s1 +:+ s2 +:+ s3.
Proof. apply chars_inj. by rewrite !chars_app, app_assoc. Qed.

Lemma trimStart_head s a r :
  trimStart s = String a r → is_white_space a = false.
Proof.
  induction s as [|b s IH]; [done|]. simpl.
  destruct (is_white_space b) eqn:Hb; [done|]. by intros [= <- _].
Qed.

Lemma trimStart_fixed s :
  (∀ a r, s = String a r → is_white_space a = false) → trimStart s = s.
Proof.
  destruct s as [|a s]; [done|]. intros Hhead. simpl.
  by rewrite (Hhead a s).
Qed.

Lemma trimStart_decomp s :
  ∃ w, s = w +:+ trimStart s ∧ Forall white (chars w).
Proof.
  induction s as [|a s (w & Hs & Hw)]; [by exists ""|]. simpl.
  destruct (is_white_space a) eqn:Ha; [|by exists ""].
  exists (String a w). split; [|by constructor].
  change (String a s = String a (w +:+ trimStart s)). by rewrite <-Hs.
Qed.

Lemma trimEnd_decomp s :
  ∃ w, s = trimEnd s +:+ w ∧ Forall white (chars w).
Proof.
  destruct (trimStart_decomp (String.rev s)) as (w & Hs & Hw).
  exists (String.rev w). split.
  - unfold trimEnd. rewrite <-rev_app_distr, <-Hs. by rewrite rev_involutive.
  - rewrite chars_rev. by apply Forall_reverse.
Qed.

(** [trim] removes white space from both ends and nothing else. *)
Lemma trim_decomp s :
  ∃ pre post, s = pre +:+ trim s +:+ post
              ∧ Forall white (chars pre) ∧ Forall white (chars post).
Proof.
  destruct (trimStart_decomp s) as (pre & Hs & Hpre).
  destruct (trimEnd_decomp (trimStart s)) as (post & Ht & Hpost).
  exists pre, post. unfold trim. by rewrite <-Ht.
Qed.

Lemma trim_no_leading s a r : trim s = String a r → is_white_space a = false.
Proof.
  intros Htrim.
  destruct (trimEnd_decomp (trimStart s)) as (post & Ht & _).
  fold (trim s) in Ht. rewrite Htrim in Ht.
  by apply (trimStart_head s a (r +:+ post)).
Qed.

Lemma trim_no_trailing s a r :
  String.rev (trim s) = String a r → is_white_space a = false.
Proof.
  unfold trim, trimEnd. rewrite rev_involutive. apply trimStart_head.
Qed.

Lemma trim_idempotent s : trim (trim s) = trim s.
Proof.
  unfold trim at 1.
  rewrite (trimStart_fixed (trim s)) by (intros a r; apply trim_no_leading).
  unfold trimEnd.
  rewrite (trimStart_fixed (String.rev (trim s)))
    by (intros a r; apply trim_no_trailing).
  apply rev_involutive.
Qed.
End Trim.

Section ChatTrim.
Import Chat.
Variable projectId : option jsval.
Variable inputRef_current : bool.

(** X22. What an accepted submit sends is the typed text with the white
    space at both ends removed and nothing else changed: the [message]
    field of the request body and the [content] of the optimistic user
    message are the same non-empty string, which neither starts nor ends
    with white space, which trimming again leaves as it is, and which
    together with white space before and after it makes up the typed
    text. *)
Theorem sent_message_is_trimmed now sent listed st :
  trim (inputValue st) ≠ "" → sending st = false →
  ∃ message,
    message = trim (inputValue st)
    ∧ head (requests
              (trace (run (handleSendMessage projectId inputRef_current now
                             sent listed) st)))
      = Some (Api.chatAPI_sendMessage projectId message (currentSessionId st))
    ∧ (∃ body,
         data (Api.chatAPI_sendMessage projectId message (currentSessionId st))
         = JsonData body
         ∧ body !! "message" = Some (JStr message))
    ∧ (∃ sent_message,
         last (messages (final_state (run (handleSendMessage_begin now) st)))
         = Some sent_message
         ∧ sent_message !! "role" = Some (JStr "user")
         ∧ sent_message !! "content" = Some (JStr message))
    ∧ message ≠ ""
    ∧ (∀ a r, message = String a r → is_white_space a = false)
    ∧ (∀ a r, String.rev message = String a r → is_white_space a = false)
    ∧ trim message = message
    ∧ ∃ pre post,
        inputValue st = pre +:+ message +:+ post
        ∧ Forall (λ a, is_white_space a = true)
            (String.list_ascii_of_string pre)
        ∧ Forall (λ a, is_white_space a = true)
            (String.list_ascii_of_string post).
Proof.
  intros Hne Hidle. exists (trim (inputValue st)).
  split; [done|]. split.
  { rewrite handleSendMessage_accepted by done.
    destruct (handleSendMessage_exchange_sends projectId inputRef_current
                (currentSessionId st) (trim (inputValue st)) sent listed
                (sending_state now st)) as (r & st' & t & ->).
    done. }
  split.
  { eexists. split; [done|]. by rewrite lookup_insert_eq. }
  split.
  { rewrite handleSendMessage_begin_accepted by done.
    unfold final_state, sending_state. simpl. rewrite last_snoc.
    eexists. split; [done|]. unfold userMessage.
    split; [by rewrite lookup_insert_eq|].
    by rewrite lookup_insert_ne, lookup_insert_eq. }
  split; [done|].
  split; [intros a r; apply trim_no_leading|].
  split; [intros a r; apply trim_no_trailing|].
  split; [apply trim_idempotent|].
  apply trim_decomp.
Qed.
End ChatTrim.

Lemma sent_message_is_trimmed_witness :
  ∃ message,
    head (requests
            (trace (run (Chat.handleSendMessage Examples.pid true
                           Examples.clock (Fulfilled Examples.reply)
                           (Fulfilled []))
                      Examples.chat_in_session)))
    = Some (Api.chatAPI_sendMessage Examples.pid message (Some (JStr "s1")))
    ∧ message ≠ ""
    ∧ trim message = message.
Proof.
  destruct (sent_message_is_trimmed Examples.pid true Examples.clock
              (Fulfilled Examples.reply) (Fulfilled [])
              Examples.chat_in_session)
    as (message & _ & Hhead & _ & _ & Hne & _ & _ & Hfixed & _).
  - vm_compute. discriminate.
  - reflexivity.
  - exists message. split; [exact Hhead|]. split; [exact Hne | exact Hfixed].
Defined.
